(** * swift-http-import: the Yum source and the worker pipeline

    A shallow embedding of [pkg/objects/yum.go] (module [objects]) and of
    [threads.go] (module [threads]), with the properties of the
    specification stated and proved over it.

    Conventions.
    - A Go [error] is represented by its [Error()] text.
    - A Go call returning [(value, err)] returns a [result]: [Ok value]
      when [err == nil], [Err err] otherwise.
    - Code that talks to the network runs in a state monad over an abstract
      [World]; the standard library packages (net/http, compress/gzip,
      io/ioutil) and the parts of this repository that yum.go only calls
      (URLSource) are the fields of the classes [Platform] and [Gzip].
    - [xml.Unmarshal] into a struct type is the class [XMLTarget]. What
      the field tags of the three structs of ListAllFiles make it store
      is written out over element trees ([unmarshalRepomd],
      [unmarshalPrimary], [unmarshalPrestodelta]); the tokenizer stays a
      parameter ([XMLSyntax]).
    - The goroutines of threads.go are a step function on the state of
      the whole program: a schedule says which goroutine moves next and
      which ready case a select takes, and a run is a schedule applied
      from the state in which Run starts. What threads.go only calls
      (the scraper, NeedsTransfer, PerformTransfer) is the class
      [Workers]. *)

From stdpp Require Import base strings list gmap.
From Stdlib Require Import ZArith Strings.Byte.


(** ** Results and the state monad *)

Definition Error : Type := string.

Inductive result (E A : Type) : Type :=
| Ok (a : A)
| Err (e : E).
Arguments Ok {E A} a.
Arguments Err {E A} e.

Definition M (W A : Type) : Type := W -> A * W.

Definition ret {W A} (a : A) : M W A := fun w => (a, w).

Definition bind {W A B} (m : M W A) (k : A -> M W B) : M W B :=
  fun w => let (a, w') := m w in k a w'.

Notation "x <- c ;; k" := (bind c (fun x => k))
  (at level 100, c at next level, right associativity).

(** ** bytes.HasPrefix *)

Fixpoint bytes_Equal (a b : list byte) : bool :=
  match a, b with
  | [], [] => true
  | x :: a', y :: b' => Byte.eqb x y && bytes_Equal a' b'
  | _, _ => false
  end.

(** [len(s) >= len(prefix) && Equal(s[0:len(prefix)], prefix)] *)
Definition bytes_HasPrefix (s prefix : list byte) : bool :=
  (length prefix <=? length s)%nat && bytes_Equal (take (length prefix) s) prefix.

Module objects.

(** ** Data of package objects *)

Record ListEntriesError : Type := mkListEntriesError {
  Location : string;
  Message : string
}.

(** yum.go builds every FileSpec as [FileSpec{Path: ...}]: the other fields
    of the struct keep their zero value and are not represented. *)
Record FileSpec : Type := mkFileSpec { Path : string }.

(** *** The anonymous structs that the three documents are decoded into *)

Record LocationT : Type := mkLocation { Href : string }.

(** [<data type=T><location href=H/></data>] of repomd.xml *)
Record RepomdEntry : Type := mkRepomdEntry {
  entry_Type : string;
  entry_Location : LocationT
}.
Record Repomd : Type := mkRepomd { Entries : list RepomdEntry }.

(** [<package><location href=H/></package>] of the primary index *)
Record PrimaryPackage : Type := mkPrimaryPackage { pkg_Location : LocationT }.
Record Primary : Type := mkPrimary { primary_Packages : list PrimaryPackage }.

(** [<newpackage><delta><filename>H</filename></delta></newpackage>] *)
Record DeltaT : Type := mkDelta { delta_Href : string }.
Record NewPackage : Type := mkNewPackage { newpkg_Delta : DeltaT }.
Record Prestodelta : Type := mkPrestodelta { prestodelta_Packages : list NewPackage }.

(** [xml.Unmarshal(buf, data)] for a target struct type [A]. *)
Class XMLTarget (A : Type) : Type := xml_Unmarshal : list byte -> result Error A.

(** *** How the field tags of the three structs direct encoding/xml

    [xml.Unmarshal] reads the root element of the document and fills the
    struct from it. None of the three structs has an [XMLName] field, so
    the name of the root element is not looked at, and every field is a
    string, so that nothing but the syntax of the document can fail.
    - A field tagged [xml:"name"] takes the child elements of that name.
      A slice field gets one new element per child, in document order. A
      struct or string field is the same variable for every such child:
      each child is unmarshalled into it in turn, and what a later child
      sets replaces what an earlier one had set.
    - A field tagged [xml:"name,attr"] takes the attributes of that name.
    - A string field filled from an element holds the character data
      found directly inside it.
    - Children and attributes that no field names are skipped. *)

#[warnings="-register-all"] Inductive Node : Type :=
| Element (name : string) (attrs : list (string * string)) (content : list Node)
| CharData (text : string).

Definition content (n : Node) : list Node :=
  match n with
  | Element _ _ c => c
  | CharData _ => []
  end.

(** the child elements called [name], each as its attributes and content *)
Definition elements (name : string) (nodes : list Node)
  : list (list (string * string) * list Node) :=
  omap (fun n => match n with
                 | Element nm a c => if decide (nm = name) then Some (a, c) else None
                 | CharData _ => None
                 end) nodes.

Definition setAttr (name : string) (attrs : list (string * string)) (old : string) : string :=
  fold_left (fun v a => if decide (a.1 = name) then a.2 else v) attrs old.

Definition chardata (nodes : list Node) : string :=
  fold_left (fun acc n => match n with
                          | CharData t => acc +:+ t
                          | Element _ _ _ => acc
                          end) nodes EmptyString.

(** [Location struct { Href string `xml:"href,attr"` } `xml:"location"`] *)
Definition unmarshalLocation (nodes : list Node) (old : LocationT) : LocationT :=
  fold_left (fun l e => mkLocation (setAttr "href" e.1 (Href l)))
            (elements "location" nodes) old.

(** [Entries []struct { Type ...; Location ... } `xml:"data"`] *)
Definition unmarshalRepomd (root : Node) : Repomd :=
  mkRepomd
    (map (fun e => mkRepomdEntry (setAttr "type" e.1 EmptyString)
                                 (unmarshalLocation e.2 (mkLocation EmptyString)))
         (elements "data" (content root))).

(** [Packages []struct { Location ... } `xml:"package"`] *)
Definition unmarshalPrimary (root : Node) : Primary :=
  mkPrimary
    (map (fun e => mkPrimaryPackage (unmarshalLocation e.2 (mkLocation EmptyString)))
         (elements "package" (content root))).

(** [Delta struct { Href string `xml:"filename"` } `xml:"delta"`]: not a
    slice, so all the [<delta>] children of a [<newpackage>] are
    unmarshalled into one and the same [Delta]. *)
Definition unmarshalDelta (nodes : list Node) (old : DeltaT) : DeltaT :=
  fold_left (fun d e => fold_left (fun d f => mkDelta (chardata f.2))
                                  (elements "filename" e.2) d)
            (elements "delta" nodes) old.

(** [Packages []struct { Delta ... } `xml:"newpackage"`] *)
Definition unmarshalPrestodelta (root : Node) : Prestodelta :=
  mkPrestodelta
    (map (fun e => mkNewPackage (unmarshalDelta e.2 (mkDelta EmptyString)))
         (elements "newpackage" (content root))).

(** The syntax of XML: the root element of a document, or the error of
    the tokenizer (also when the document has no element at all). *)
Class XMLSyntax : Type := xml_Tokenize : list byte -> result Error Node.

Definition unmarshalWith {A} `{XMLSyntax} (fill : Node -> A) : XMLTarget A :=
  fun buf =>
    match xml_Tokenize buf with
    | Ok root => Ok (fill root)
    | Err err => Err err
    end.

(** ** What yum.go calls and does not define *)

Record Response (BodyT : Type) : Type := mkResponse {
  StatusCode : Z;
  Body : BodyT
}.
Arguments mkResponse {BodyT} _ _.
Arguments StatusCode {BodyT} _.
Arguments Body {BodyT} _.

Class Platform : Type := {
  World : Type;
  (* this repository, urlsource.go *)
  URLSource : Type;
  FileState : Type;
  getURLForPath : URLSource -> string -> string;   (* getURLForPath(path).String() *)
  URLSource_Validate : URLSource -> string -> list Error;
  URLSource_Connect : URLSource -> M World (URLSource * option Error);
  URLSource_ListEntries : URLSource -> string -> M World (result ListEntriesError (list FileSpec));
  URLSource_ListAllFiles : URLSource -> M World (result ListEntriesError (list FileSpec));
  (* net/http and io/ioutil *)
  Request : Type;
  BodyT : Type;
  URLSource_GetFile :
    URLSource -> string -> FileState -> M World (option BodyT * FileState * option Error);
  http_NewRequest : string -> string -> result Error Request;
  HTTPClient_Do : URLSource -> Request -> M World (result Error (Response BodyT));
  Body_ReadAll : BodyT -> M World (result Error (list byte));
  Body_Close : BodyT -> M World unit;
}.

(** compress/gzip over an in-memory buffer *)
Class Gzip : Type := {
  GzipReader : Type;
  gzip_NewReader : list byte -> result Error GzipReader;
  GzipReader_ReadAll : GzipReader -> result Error (list byte);
}.

(** The [Source] interface, as the methods of yum.go implement it. *)
Class Source `{Platform} (T : Type) : Type := {
  Validate : T -> string -> list Error;
  Connect : T -> M World (T * option Error);
  ListEntries : T -> string -> M World (result ListEntriesError (list FileSpec));
  GetFile : T -> string -> FileState -> M World (option BodyT * FileState * option Error);
  ListAllFiles : T -> M World (result ListEntriesError (list FileSpec));
}.

Section Yum.
Context `{P : Platform} `{G : Gzip}.
Context `{XRepomd : XMLTarget Repomd}
        `{XPrimary : XMLTarget Primary}
        `{XPrestodelta : XMLTarget Prestodelta}.

(** [type YumSource URLSource]: a distinct type with the same underlying
    value; the conversion of [s] to a URLSource pointer is [asURLSource s]. *)
Record YumSource : Type := mkYumSource { asURLSource : URLSource }.

Definition YumSource_Validate (s : YumSource) (name : string) : list Error :=
  URLSource_Validate (asURLSource s) name.

(** Connect has a pointer receiver: the URLSource it may update is the
    YumSource's own value. *)
Definition YumSource_Connect (s : YumSource) : M World (YumSource * option Error) :=
  r <- URLSource_Connect (asURLSource s) ;;
  ret (mkYumSource r.1, r.2).

Definition YumSource_ListEntries (s : YumSource) (directoryPath : string)
  : M World (result ListEntriesError (list FileSpec)) :=
  ret (Err {| Location := getURLForPath (asURLSource s) directoryPath;
              Message := "ListEntries is not implemented for YumSource" |}).

Definition YumSource_GetFile (s : YumSource) (directoryPath : string)
    (targetState : FileState)
  : M World (option BodyT * FileState * option Error) :=
  URLSource_GetFile (asURLSource s) directoryPath targetState.

(** Helper function for YumSource.ListAllFiles(): returns the URI and
    either the contents or the error. *)
Definition getFileContents (s : YumSource) (path : string)
  : M World (string * result ListEntriesError (list byte)) :=
  let u := asURLSource s in
  let uri := getURLForPath u path in
  match http_NewRequest "GET" uri with
  | Err err => ret (uri, Err (mkListEntriesError uri ("GET failed: " +:+ err)))
  | Ok req =>
    r <- HTTPClient_Do u req ;;
    match r with
    | Err err => ret (uri, Err (mkListEntriesError uri ("GET failed: " +:+ err)))
    | Ok resp =>
      rd <- Body_ReadAll (Body resp) ;;
      _ <- Body_Close (Body resp) ;;          (* defer resp.Body.Close() *)
      match rd with
      | Err err => ret (uri, Err (mkListEntriesError uri ("GET failed: " +:+ err)))
      | Ok contents => ret (uri, Ok contents)
      end
    end
  end.

Definition gzipMagic : list byte := [Byte.x1f; Byte.x8b; Byte.x08].

(** [gzip.NewReader(bytes.NewReader(buf))], then [ioutil.ReadAll(reader)]
    when the reader could be made. *)
Definition gunzip (buf : list byte) : result Error (list byte) :=
  match gzip_NewReader buf with
  | Ok reader => GzipReader_ReadAll reader
  | Err err => Err err
  end.

(** Helper function for YumSource.ListAllFiles(). The Go function fills
    [data] through a pointer; here the decoded value is returned. *)
Definition downloadAndParseXML {A} `{XMLTarget A} (s : YumSource) (path : string)
  : M World (string * result ListEntriesError A) :=
  c <- getFileContents s path ;;
  let (uri, r) := c in
  match r with
  | Err lerr => ret (uri, Err lerr)
  | Ok buf =>
    let unzipped :=
      if bytes_HasPrefix buf gzipMagic then gunzip buf else Ok buf in
    match unzipped with
    | Err err =>
      ret (uri, Err (mkListEntriesError uri
                       ("error while decompressing GZip archive: " +:+ err)))
    | Ok buf' =>
      match xml_Unmarshal buf' with
      | Err err =>
        ret (uri, Err (mkListEntriesError uri ("error while parsing XML: " +:+ err)))
      | Ok data => ret (uri, Ok data)
      end
    end
  end.

Definition repomdPath : string := "repodata/repomd.xml".

(** The loop over [repomd.Entries]: one append and one map store each. *)
Definition noteEntry (acc : list FileSpec * gmap string string) (entry : RepomdEntry)
  : list FileSpec * gmap string string :=
  (acc.1 ++ [mkFileSpec (Href (entry_Location entry))],
   <[entry_Type entry := Href (entry_Location entry)]> acc.2).

Definition noteEntries (entries : list RepomdEntry)
  : list FileSpec * gmap string string :=
  fold_left noteEntry entries ([mkFileSpec repomdPath], ∅).

Definition appendPackages (allFiles : list FileSpec) (pkgs : list PrimaryPackage)
  : list FileSpec :=
  fold_left (fun acc pkg => acc ++ [mkFileSpec (Href (pkg_Location pkg))]) pkgs allFiles.

Definition appendDeltas (allFiles : list FileSpec) (pkgs : list NewPackage)
  : list FileSpec :=
  fold_left (fun acc pkg => acc ++ [mkFileSpec (delta_Href (newpkg_Delta pkg))]) pkgs allFiles.

Definition YumSource_ListAllFiles (s : YumSource)
  : M World (result ListEntriesError (list FileSpec)) :=
  (* parse repomd.xml to find paths of all other metadata files *)
  d <- downloadAndParseXML s repomdPath ;;
  let (repomdURL, r) := d in
  match r with
  | Err lerr => ret (Err lerr)
  | Ok repomd =>
    (* note metadata files for transfer *)
    let (allFiles, hrefsByType) := noteEntries (Entries repomd) in
    (* parse primary.xml.gz to find paths of RPMs *)
    match hrefsByType !! "primary" with
    | None =>
      ret (Err {| Location := repomdURL;
                  Message := "cannot find link to primary.xml.gz in repomd.xml" |})
    | Some href =>
      d <- downloadAndParseXML s href ;;
      match d.2 with
      | Err lerr => ret (Err lerr)
      | Ok primary =>
        let allFiles := appendPackages allFiles (primary_Packages primary) in
        (* parse prestodelta.xml.gz (if present) to find paths of DRPMs *)
        match hrefsByType !! "prestodelta" with
        | Some href =>
          d <- downloadAndParseXML s href ;;
          match d.2 with
          | Err lerr => ret (Err lerr)
          | Ok prestodelta =>
            ret (Ok (appendDeltas allFiles (prestodelta_Packages prestodelta)))
          end
        | None => ret (Ok allFiles)
        end
      end
    end
  end.

#[export] Instance URLSource_Source : Source URLSource := {|
  Validate := URLSource_Validate;
  Connect := URLSource_Connect;
  ListEntries := URLSource_ListEntries;
  GetFile := URLSource_GetFile;
  ListAllFiles := URLSource_ListAllFiles;
|}.

#[export] Instance YumSource_Source : Source YumSource := {|
  Validate := YumSource_Validate;
  Connect := YumSource_Connect;
  ListEntries := YumSource_ListEntries;
  GetFile := YumSource_GetFile;
  ListAllFiles := YumSource_ListAllFiles;
|}.

End Yum.

(** *** The lists a result is made of, named after the documents *)

(** every [<data>] entry's location href, in document order *)
Definition dataFiles (entries : list RepomdEntry) : list FileSpec :=
  map (fun e => mkFileSpec (Href (entry_Location e))) entries.

(** every [<package>] location href of the primary index *)
Definition packageFiles (pkgs : list PrimaryPackage) : list FileSpec :=
  map (fun p => mkFileSpec (Href (pkg_Location p))) pkgs.

(** every [<newpackage><delta>] filename of the prestodelta index *)
Definition deltaFiles (pkgs : list NewPackage) : list FileSpec :=
  map (fun p => mkFileSpec (delta_Href (newpkg_Delta p))) pkgs.

(** [hrefsByType] as it stands after the loop over the entries *)
Definition hrefsByType (entries : list RepomdEntry) : gmap string string :=
  (noteEntries entries).2.

(** the href of the last [<data>] entry of type [ty] *)
Definition lastHref (ty : string) (entries : list RepomdEntry) : option string :=
  fold_left (fun acc e => if decide (entry_Type e = ty)
                          then Some (Href (entry_Location e)) else acc)
            entries None.

(** what a document's decoding is turned into at [uri] *)
Definition parsedAt {A} (uri : string) (r : result Error A) : result ListEntriesError A :=
  match r with
  | Ok data => Ok data
  | Err err => Err (mkListEntriesError uri ("error while parsing XML: " +:+ err))
  end.

(** every [<newpackage><delta>] filename of a prestodelta document, in
    document order *)
Definition documentDeltas (root : Node) : list FileSpec :=
  flat_map (fun np =>
    flat_map (fun d => map (fun f => mkFileSpec (chardata f.2)) (elements "filename" d.2))
             (elements "delta" np.2))
    (elements "newpackage" (content root)).

(** A fetch answered with status 404 whose body could be read ends
    downloadAndParseXML with a decompression or decoding error at the URL
    of the document. *)
Definition missing_is_parse_error `{Platform} `{Gzip} {A} `{XMLTarget A}
    (s : YumSource) (path : string) (w : World) : Prop :=
  forall req resp w1 contents w2,
    http_NewRequest "GET" (getURLForPath (asURLSource s) path) = Ok req ->
    HTTPClient_Do (asURLSource s) req w = (Ok resp, w1) ->
    StatusCode resp = 404%Z ->
    Body_ReadAll (Body resp) w1 = (Ok contents, w2) ->
    exists e err,
      (downloadAndParseXML s path w).1.2 = Err e
      /\ Location e = getURLForPath (asURLSource s) path
      /\ (Message e = "error while decompressing GZip archive: " +:+ err
          \/ Message e = "error while parsing XML: " +:+ err).

End objects.

Module threads.

(** ** What threads.go calls and does not define *)

(** [File] (file.go): threads.go reads the field [Path] only; the other
    fields are [rest], with [zeroRest] their zero value. *)
Record FileT (R : Type) : Type := mkFile { Path : string; rest : R }.
Arguments mkFile {R} _ _.
Arguments Path {R} _.
Arguments rest {R} _.

Class Workers : Type := {
  Configuration : Type;
  FileRest : Type;
  zeroRest : FileRest;
  (* the destination as reached through the shared *swift.Connection *)
  SwiftConn : Type;
  NeedsTransfer : FileT FileRest -> SwiftConn -> bool * SwiftConn;
  PerformTransfer : FileT FileRest -> SwiftConn -> bool * SwiftConn;
  (* scraper.go; the sources a scraper reads are part of its state *)
  Scraper : Type;
  NewScraper : Configuration -> Scraper;
  Scraper_Done : Scraper -> bool;
  Scraper_Next : Scraper -> list (FileT FileRest) * Scraper;
}.

Section Pipeline.
Context `{W : Workers}.

Definition File : Type := FileT FileRest.

(** The zero value [File{}], which a receive from a closed channel yields. *)
Definition zeroFile : File := mkFile EmptyString zeroRest.

(** [uint64] increment *)
Definition incr (n : Z) : Z := ((n + 1) mod 2 ^ 64)%Z.

(** *** SharedState *)
Record SharedState : Type := mkSharedState {
  Config : Configuration;
  Context_cancelled : bool;      (* state.Context.Err() != nil; Done() is closed *)
  SwiftConnection : SwiftConn;
  WaitGroup : nat;
  DirectoriesScanned : Z;
  FilesFound : Z;
  FilesNeedTransfer : Z;
  FilesTransferred : Z
}.

(** *** Channels: [make(chan File, 10)] *)
Record Chan : Type := mkChan { buf : list File; closed : bool }.

Definition capacity : nat := 10.
Definition newChan : Chan := mkChan [] false.

(** [out <- file]: blocks ([None]) while the buffer is full. *)
Definition chan_send (c : Chan) (f : File) : option Chan :=
  if (length (buf c) <? capacity)%nat then Some (mkChan (buf c ++ [f]) (closed c))
  else None.

(** [file = <-in]: the oldest buffered value; the zero value once the
    channel is closed and drained; blocks ([None]) otherwise. *)
Definition chan_recv (c : Chan) : option (File * Chan) :=
  match buf c with
  | f :: fs => Some (f, mkChan fs (closed c))
  | [] => if closed c then Some (zeroFile, c) else None
  end.

Definition chan_close (c : Chan) : Chan := mkChan (buf c) true.

(** *** The goroutines, one constructor per point where a goroutine can
    be when another one runs *)
Inductive ScraperPC : Type :=
| SLoop                               (* loop head, before state.Context.Err() *)
| SCheckedCtx                         (* before scraper.Done() *)
| SRange (files : list File)          (* for _, file := range scraper.Next() *)
| SSend (file : File) (files : list File)   (* at out <- file *)
| SSubmitDirs                         (* state.DirectoriesScanned = ... *)
| SSubmitFiles                        (* state.FilesFound = ... *)
| SClose                              (* deferred close(out) *)
| SWgDone                             (* deferred state.WaitGroup.Done() *)
| STerminated.

Inductive CheckerPC : Type :=
| CIdle                               (* goroutine not started yet *)
| CSelect                             (* at the select *)
| CNeeds (file : File)                (* before file.NeedsTransfer(...) *)
| CSend (file : File)                 (* at out <- file *)
| CSubmit                             (* state.FilesNeedTransfer = ... *)
| CClose
| CWgDone
| CTerminated.

Inductive TransferPC : Type :=
| TIdle
| TSelect
| TPerform (file : File)              (* before file.PerformTransfer(...) *)
| TSubmit                             (* state.FilesTransferred = ... *)
| TWgDone
| TTerminated.

Inductive MainPC : Type :=
| MMakeChecker                        (* before makeCheckerThread(...) *)
| MMakeTransfer                       (* before makeTransferThread(...) *)
| MWait                               (* at state.WaitGroup.Wait() *)
| MLog                                (* before Log(LogInfo, ...) *)
| MReturned.

Record System : Type := mkSystem {
  state : SharedState;
  scraper : Scraper;
  chan1 : Chan;                       (* scraper -> checker *)
  chan2 : Chan;                       (* checker -> transfer *)
  mainPC : MainPC;
  scraperPC : ScraperPC;
  directoriesScanned : Z;
  filesFound : Z;
  checkerPC : CheckerPC;
  filesNeedTransfer : Z;
  transferPC : TransferPC;
  filesTransferred : Z;
  signalWaiting : bool                (* the handler goroutine is at <-sigs *)
}.

(** *** What a run lets an observer see *)
Inductive Stage : Type := StScraper | StChecker | StTransfer.

Inductive Counter : Type :=
| CtrDirectoriesScanned | CtrFilesFound | CtrFilesNeedTransfer | CtrFilesTransferred.

Inductive Event : Type :=
| EvCancel
| EvListDir (files : list File)             (* scraper.Next() returned files *)
| EvCount (st : Stage) (file : File)        (* a counter of st was incremented for file *)
| EvSend (st : Stage) (file : File)         (* out <- file *)
| EvRecv (st : Stage) (file : File)         (* file = <-in *)
| EvNeedsTransfer (file : File) (b : bool)
| EvPerformTransfer (file : File) (b : bool)
| EvWrite (st : Stage) (c : Counter) (v : Z)  (* state.c = v *)
| EvDone (st : Stage)                       (* state.WaitGroup.Done() *)
| EvLog (ds ff nt tr : Z).                  (* the counters read for Log *)

(** The case a select takes; Go picks among the ready cases at random. *)
Inductive SelectCase : Type := CaseDone | CaseIn.

(** Who moves next: the handler goroutine receives a signal, or one of the
    other goroutines takes one step. *)
Inductive Action : Type :=
| ASignal
| AMain
| AScraper
| AChecker (c : SelectCase)
| ATransfer (c : SelectCase).

(** **** Field updates *)
Definition with_state (f : SharedState -> SharedState) (s : System) : System :=
  mkSystem (f (state s)) (scraper s) (chan1 s) (chan2 s) (mainPC s)
    (scraperPC s) (directoriesScanned s) (filesFound s)
    (checkerPC s) (filesNeedTransfer s) (transferPC s) (filesTransferred s)
    (signalWaiting s).
Definition with_scraper (x : Scraper) (s : System) : System :=
  mkSystem (state s) x (chan1 s) (chan2 s) (mainPC s)
    (scraperPC s) (directoriesScanned s) (filesFound s)
    (checkerPC s) (filesNeedTransfer s) (transferPC s) (filesTransferred s)
    (signalWaiting s).
Definition with_chan1 (x : Chan) (s : System) : System :=
  mkSystem (state s) (scraper s) x (chan2 s) (mainPC s)
    (scraperPC s) (directoriesScanned s) (filesFound s)
    (checkerPC s) (filesNeedTransfer s) (transferPC s) (filesTransferred s)
    (signalWaiting s).
Definition with_chan2 (x : Chan) (s : System) : System :=
  mkSystem (state s) (scraper s) (chan1 s) x (mainPC s)
    (scraperPC s) (directoriesScanned s) (filesFound s)
    (checkerPC s) (filesNeedTransfer s) (transferPC s) (filesTransferred s)
    (signalWaiting s).
Definition with_mainPC (x : MainPC) (s : System) : System :=
  mkSystem (state s) (scraper s) (chan1 s) (chan2 s) x
    (scraperPC s) (directoriesScanned s) (filesFound s)
    (checkerPC s) (filesNeedTransfer s) (transferPC s) (filesTransferred s)
    (signalWaiting s).
Definition with_scraperPC (x : ScraperPC) (s : System) : System :=
  mkSystem (state s) (scraper s) (chan1 s) (chan2 s) (mainPC s)
    x (directoriesScanned s) (filesFound s)
    (checkerPC s) (filesNeedTransfer s) (transferPC s) (filesTransferred s)
    (signalWaiting s).
Definition with_directoriesScanned (x : Z) (s : System) : System :=
  mkSystem (state s) (scraper s) (chan1 s) (chan2 s) (mainPC s)
    (scraperPC s) x (filesFound s)
    (checkerPC s) (filesNeedTransfer s) (transferPC s) (filesTransferred s)
    (signalWaiting s).
Definition with_filesFound (x : Z) (s : System) : System :=
  mkSystem (state s) (scraper s) (chan1 s) (chan2 s) (mainPC s)
    (scraperPC s) (directoriesScanned s) x
    (checkerPC s) (filesNeedTransfer s) (transferPC s) (filesTransferred s)
    (signalWaiting s).
Definition with_checkerPC (x : CheckerPC) (s : System) : System :=
  mkSystem (state s) (scraper s) (chan1 s) (chan2 s) (mainPC s)
    (scraperPC s) (directoriesScanned s) (filesFound s)
    x (filesNeedTransfer s) (transferPC s) (filesTransferred s)
    (signalWaiting s).
Definition with_filesNeedTransfer (x : Z) (s : System) : System :=
  mkSystem (state s) (scraper s) (chan1 s) (chan2 s) (mainPC s)
    (scraperPC s) (directoriesScanned s) (filesFound s)
    (checkerPC s) x (transferPC s) (filesTransferred s)
    (signalWaiting s).
Definition with_transferPC (x : TransferPC) (s : System) : System :=
  mkSystem (state s) (scraper s) (chan1 s) (chan2 s) (mainPC s)
    (scraperPC s) (directoriesScanned s) (filesFound s)
    (checkerPC s) (filesNeedTransfer s) x (filesTransferred s)
    (signalWaiting s).
Definition with_filesTransferred (x : Z) (s : System) : System :=
  mkSystem (state s) (scraper s) (chan1 s) (chan2 s) (mainPC s)
    (scraperPC s) (directoriesScanned s) (filesFound s)
    (checkerPC s) (filesNeedTransfer s) (transferPC s) x
    (signalWaiting s).
Definition with_signalWaiting (x : bool) (s : System) : System :=
  mkSystem (state s) (scraper s) (chan1 s) (chan2 s) (mainPC s)
    (scraperPC s) (directoriesScanned s) (filesFound s)
    (checkerPC s) (filesNeedTransfer s) (transferPC s) (filesTransferred s) x.

Definition set_cancelled (st : SharedState) : SharedState :=
  mkSharedState (Config st) true (SwiftConnection st) (WaitGroup st)
    (DirectoriesScanned st) (FilesFound st) (FilesNeedTransfer st) (FilesTransferred st).
Definition set_conn (c : SwiftConn) (st : SharedState) : SharedState :=
  mkSharedState (Config st) (Context_cancelled st) c (WaitGroup st)
    (DirectoriesScanned st) (FilesFound st) (FilesNeedTransfer st) (FilesTransferred st).
Definition set_WaitGroup (n : nat) (st : SharedState) : SharedState :=
  mkSharedState (Config st) (Context_cancelled st) (SwiftConnection st) n
    (DirectoriesScanned st) (FilesFound st) (FilesNeedTransfer st) (FilesTransferred st).
Definition set_counter (c : Counter) (v : Z) (st : SharedState) : SharedState :=
  mkSharedState (Config st) (Context_cancelled st) (SwiftConnection st) (WaitGroup st)
    (match c with CtrDirectoriesScanned => v | _ => DirectoriesScanned st end)
    (match c with CtrFilesFound => v | _ => FilesFound st end)
    (match c with CtrFilesNeedTransfer => v | _ => FilesNeedTransfer st end)
    (match c with CtrFilesTransferred => v | _ => FilesTransferred st end).

(** [state.WaitGroup.Done()]; it panics on a zero counter ([None]). *)
Definition wg_Done (s : System) : option System :=
  match WaitGroup (state s) with
  | O => None
  | S n => Some (with_state (set_WaitGroup n) s)
  end.

Definition path_empty (f : File) : bool := bool_decide (Path f = EmptyString).

(** *** makeScraperThread *)

(** The part that runs in the caller: [WaitGroup.Add(1)], the output
    channel, [NewScraper], and the goroutine is started. Run calls it
    first, with the signal handler already waiting, so this is also the
    state the system starts from. *)
Definition makeScraperThread (st : SharedState) : System :=
  mkSystem (set_WaitGroup (S (WaitGroup st)) st) (NewScraper (Config st))
    newChan newChan MMakeChecker SLoop 0 0 CIdle 0 TIdle 0 true.

(** One step of the goroutine. *)
Definition makeScraperThread_go (s : System) : option (list Event * System) :=
  match scraperPC s with
  | SLoop =>
    (* check if state.Context.Done() is closed *)
    if Context_cancelled (state s) then Some ([], with_scraperPC SSubmitDirs s)
    else Some ([], with_scraperPC SCheckedCtx s)
  | SCheckedCtx =>
    if Scraper_Done (scraper s) then Some ([], with_scraperPC SSubmitDirs s)
    else
      let (files, sc) := Scraper_Next (scraper s) in
      Some ([EvListDir files], with_scraperPC (SRange files) (with_scraper sc s))
  | SRange (file :: files) =>
    Some ([EvCount StScraper file],
          with_scraperPC (SSend file files) (with_filesFound (incr (filesFound s)) s))
  | SRange [] =>
    Some ([], with_scraperPC SLoop
                (with_directoriesScanned (incr (directoriesScanned s)) s))
  | SSend file files =>
    match chan_send (chan1 s) file with
    | Some ch => Some ([EvSend StScraper file], with_scraperPC (SRange files) (with_chan1 ch s))
    | None => None
    end
  | SSubmitDirs =>
    (* submit statistics to main thread *)
    Some ([EvWrite StScraper CtrDirectoriesScanned (directoriesScanned s)],
          with_scraperPC SSubmitFiles
            (with_state (set_counter CtrDirectoriesScanned (directoriesScanned s)) s))
  | SSubmitFiles =>
    Some ([EvWrite StScraper CtrFilesFound (filesFound s)],
          with_scraperPC SClose
            (with_state (set_counter CtrFilesFound (filesFound s)) s))
  | SClose => Some ([], with_scraperPC SWgDone (with_chan1 (chan_close (chan1 s)) s))
  | SWgDone =>
    match wg_Done s with
    | Some s' => Some ([EvDone StScraper], with_scraperPC STerminated s')
    | None => None
    end
  | STerminated => None
  end.

(** *** makeCheckerThread *)

Definition makeCheckerThread (s : System) : System :=
  with_checkerPC CSelect
    (with_chan2 newChan (with_state (set_WaitGroup (S (WaitGroup (state s)))) s)).

Definition makeCheckerThread_go (c : SelectCase) (s : System)
  : option (list Event * System) :=
  match checkerPC s with
  | CIdle => None
  | CSelect =>
    match c with
    | CaseDone =>
      if Context_cancelled (state s) then Some ([], with_checkerPC CSubmit s) else None
    | CaseIn =>
      match chan_recv (chan1 s) with
      | Some (file, ch) =>
        Some ([EvRecv StChecker file],
              with_checkerPC
                (if path_empty file
                 then CSubmit  (* input channel is closed and returns zero values *)
                 else CNeeds file)
                (with_chan1 ch s))
      | None => None
      end
    end
  | CNeeds file =>
    let (b, conn) := NeedsTransfer file (SwiftConnection (state s)) in
    let s' := with_state (set_conn conn) s in
    if b
    then Some ([EvNeedsTransfer file true; EvCount StChecker file],
               with_checkerPC (CSend file)
                 (with_filesNeedTransfer (incr (filesNeedTransfer s)) s'))
    else Some ([EvNeedsTransfer file false], with_checkerPC CSelect s')
  | CSend file =>
    match chan_send (chan2 s) file with
    | Some ch => Some ([EvSend StChecker file], with_checkerPC CSelect (with_chan2 ch s))
    | None => None
    end
  | CSubmit =>
    (* submit statistics to main thread *)
    Some ([EvWrite StChecker CtrFilesNeedTransfer (filesNeedTransfer s)],
          with_checkerPC CClose
            (with_state (set_counter CtrFilesNeedTransfer (filesNeedTransfer s)) s))
  | CClose => Some ([], with_checkerPC CWgDone (with_chan2 (chan_close (chan2 s)) s))
  | CWgDone =>
    match wg_Done s with
    | Some s' => Some ([EvDone StChecker], with_checkerPC CTerminated s')
    | None => None
    end
  | CTerminated => None
  end.

(** *** makeTransferThread *)

Definition makeTransferThread (s : System) : System :=
  with_transferPC TSelect (with_state (set_WaitGroup (S (WaitGroup (state s)))) s).

Definition makeTransferThread_go (c : SelectCase) (s : System)
  : option (list Event * System) :=
  match transferPC s with
  | TIdle => None
  | TSelect =>
    match c with
    | CaseDone =>
      if Context_cancelled (state s) then Some ([], with_transferPC TSubmit s) else None
    | CaseIn =>
      match chan_recv (chan2 s) with
      | Some (file, ch) =>
        Some ([EvRecv StTransfer file],
              with_transferPC
                (if path_empty file
                 then TSubmit  (* input channel is closed and returns zero values *)
                 else TPerform file)
                (with_chan2 ch s))
      | None => None
      end
    end
  | TPerform file =>
    let (b, conn) := PerformTransfer file (SwiftConnection (state s)) in
    let s' := with_state (set_conn conn) s in
    if b
    then Some ([EvPerformTransfer file true; EvCount StTransfer file],
               with_transferPC TSelect
                 (with_filesTransferred (incr (filesTransferred s)) s'))
    else Some ([EvPerformTransfer file false], with_transferPC TSelect s')
  | TSubmit =>
    (* submit statistics to main thread *)
    Some ([EvWrite StTransfer CtrFilesTransferred (filesTransferred s)],
          with_transferPC TWgDone
            (with_state (set_counter CtrFilesTransferred (filesTransferred s)) s))
  | TWgDone =>
    match wg_Done s with
    | Some s' => Some ([EvDone StTransfer], with_transferPC TTerminated s')
    | None => None
    end
  | TTerminated => None
  end.

(** *** Run

    The steps of the orchestrator once the scraper goroutine is started
    (the context and the signal handler are set up before that, with no
    other goroutine to see it). *)
Definition Run (s : System) : option (list Event * System) :=
  match mainPC s with
  | MMakeChecker => Some ([], with_mainPC MMakeTransfer (makeCheckerThread s))
  | MMakeTransfer => Some ([], with_mainPC MWait (makeTransferThread s))
  | MWait =>
    (* wait for all of them to return *)
    match WaitGroup (state s) with
    | O => Some ([], with_mainPC MLog s)
    | S _ => None
    end
  | MLog =>
    (* report results; then the deferred cancelFunc() *)
    Some ([EvLog (DirectoriesScanned (state s)) (FilesFound (state s))
                 (FilesNeedTransfer (state s)) (FilesTransferred (state s));
           EvCancel],
          with_mainPC MReturned (with_state set_cancelled s))
  | MReturned => None
  end.

(** One step of the whole program; [None] when the chosen goroutine
    cannot move (blocked, not started or finished). *)
Definition step (a : Action) (s : System) : option (list Event * System) :=
  match a with
  | ASignal =>
    (* <-sigs; cancelFunc(): the handler serves one signal and returns *)
    if signalWaiting s
    then Some ([EvCancel], with_signalWaiting false (with_state set_cancelled s))
    else None
  | AMain => Run s
  | AScraper => makeScraperThread_go s
  | AChecker c => makeCheckerThread_go c s
  | ATransfer c => makeTransferThread_go c s
  end.

(** A schedule run from a state: the events in order and the state reached. *)
Fixpoint run (acts : list Action) (s : System) : option (list Event * System) :=
  match acts with
  | [] => Some ([], s)
  | a :: acts' =>
    match step a s with
    | Some (evs, s') =>
      match run acts' s' with
      | Some (evs', s'') => Some (evs ++ evs', s'')
      | None => None
      end
    | None => None
    end
  end.

(** *** Runs and what is said about them *)

(** A run of the program: [Run] is called with [st0], the goroutines are
    scheduled as [acts] says, the events [evs] happen and [s] is reached. *)
Definition runs (st0 : SharedState) (acts : list Action) (evs : list Event) (s : System)
  : Prop :=
  run acts (makeScraperThread st0) = Some (evs, s).

(** [e] is stage [st] treating [f] as a work item: counting it, sending it
    on, or calling NeedsTransfer or PerformTransfer on it. *)
Definition works_on (st : Stage) (f : File) (e : Event) : Prop :=
  match e with
  | EvCount st' g => st' = st /\ g = f
  | EvSend st' g => st' = st /\ g = f
  | EvNeedsTransfer g _ => st = StChecker /\ g = f
  | EvPerformTransfer g _ => st = StTransfer /\ g = f
  | _ => False
  end.

(** [e] is something stage [st] does inside its loop. *)
Definition in_loop (st : Stage) (e : Event) : Prop :=
  match e with
  | EvListDir _ => st = StScraper
  | EvRecv st' _ => st' = st
  | _ => exists f, works_on st f e
  end.

(** Stage [st] never treats a File with an empty path as a work item. *)
Definition skips_sentinel (st : Stage) : Prop :=
  forall st0 acts evs s, runs st0 acts evs s ->
  forall e f, e ∈ evs -> works_on st f e -> Path f <> EmptyString.

(** Stage [st] has left its loop: only its counters are left to publish,
    and its deferred calls to run. *)
Definition left_loop (st : Stage) (s : System) : Prop :=
  match st with
  | StScraper =>
    match scraperPC s with
    | SSubmitDirs | SSubmitFiles | SClose | SWgDone | STerminated => True
    | _ => False
    end
  | StChecker =>
    match checkerPC s with
    | CSubmit | CClose | CWgDone | CTerminated => True
    | _ => False
    end
  | StTransfer =>
    match transferPC s with
    | TSubmit | TWgDone | TTerminated => True
    | _ => False
    end
  end.

Definition terminated (st : Stage) (s : System) : Prop :=
  match st with
  | StScraper => scraperPC s = STerminated
  | StChecker => checkerPC s = CTerminated
  | StTransfer => transferPC s = TTerminated
  end.

(** [e] starts work on an item that was not in the stage's hands before:
    a directory is listed, or a File is taken from an input queue. *)
Definition begins_new_item (e : Event) : Prop :=
  match e with
  | EvListDir _ => True
  | EvRecv _ f => Path f <> EmptyString
  | _ => False
  end.

(** No stage starts on a new item after a cancellation. *)
Definition stops_on_cancel : Prop :=
  forall st0 acts evs s, runs st0 acts evs s ->
  forall pre post, evs = pre ++ EvCancel :: post ->
  forall e, e ∈ post -> ~ begins_new_item e.

Definition is_ListDir (e : Event) : bool :=
  match e with EvListDir _ => true | _ => false end.

(** How many directories are listed in [evs]. *)
Definition listings (evs : list Event) : nat := length (filter is_ListDir evs).

(** *** The counters *)

Global Instance Counter_eq_dec : EqDecision Counter.
Proof. solve_decision. Defined.

Global Instance Stage_eq_dec : EqDecision Stage.
Proof. solve_decision. Defined.

Definition owner (c : Counter) : Stage :=
  match c with
  | CtrDirectoriesScanned | CtrFilesFound => StScraper
  | CtrFilesNeedTransfer => StChecker
  | CtrFilesTransferred => StTransfer
  end.

(** The writes to the field [c] in [evs]: who wrote, and what. *)
Definition writes (c : Counter) (evs : list Event) : list (Stage * Z) :=
  omap (fun e => match e with
                 | EvWrite st c' v => if decide (c' = c) then Some (st, v) else None
                 | _ => None
                 end) evs.

(** The local variable that a stage keeps for [c]. *)
Definition tally (c : Counter) (s : System) : Z :=
  match c with
  | CtrDirectoriesScanned => directoriesScanned s
  | CtrFilesFound => filesFound s
  | CtrFilesNeedTransfer => filesNeedTransfer s
  | CtrFilesTransferred => filesTransferred s
  end.

(** The field [c] of SharedState. *)
Definition field (c : Counter) (st : SharedState) : Z :=
  match c with
  | CtrDirectoriesScanned => DirectoriesScanned st
  | CtrFilesFound => FilesFound st
  | CtrFilesNeedTransfer => FilesNeedTransfer st
  | CtrFilesTransferred => FilesTransferred st
  end.

(** What Log was given for [c]. *)
Definition logged (c : Counter) (ds ff nt tr : Z) : Z :=
  match c with
  | CtrDirectoriesScanned => ds
  | CtrFilesFound => ff
  | CtrFilesNeedTransfer => nt
  | CtrFilesTransferred => tr
  end.

(** The owner of [c] has written it. *)
Definition written (c : Counter) (s : System) : bool :=
  match c with
  | CtrDirectoriesScanned =>
    match scraperPC s with SSubmitFiles | SClose | SWgDone | STerminated => true | _ => false end
  | CtrFilesFound =>
    match scraperPC s with SClose | SWgDone | STerminated => true | _ => false end
  | CtrFilesNeedTransfer =>
    match checkerPC s with CClose | CWgDone | CTerminated => true | _ => false end
  | CtrFilesTransferred =>
    match transferPC s with TWgDone | TTerminated => true | _ => false end
  end.

(** The goroutines that have called [WaitGroup.Add(1)] and not yet
    [WaitGroup.Done()]. *)
Definition live (s : System) : nat :=
  (match scraperPC s with STerminated => 0 | _ => 1 end
   + match checkerPC s with CIdle | CTerminated => 0 | _ => 1 end
   + match transferPC s with TIdle | TTerminated => 0 | _ => 1 end)%nat.

(** *** Invariants of a run *)

(** Which goroutines the orchestrator has started, and that it passes
    [Wait] only when all three have finished. *)
Definition spawned (s : System) : Prop :=
  match mainPC s with
  | MMakeChecker => checkerPC s = CIdle /\ transferPC s = TIdle
  | MMakeTransfer => checkerPC s <> CIdle /\ transferPC s = TIdle
  | MWait => checkerPC s <> CIdle /\ transferPC s <> TIdle
  | MLog | MReturned => forall st, terminated st s
  end.

(** The WaitGroup counts the live goroutines (above what it held when Run
    was called), and a written field holds its owner's tally. *)
Definition consistent (wg0 : nat) (s : System) : Prop :=
  WaitGroup (state s) = (wg0 + live s)%nat
  /\ spawned s
  /\ (forall c, written c s = true -> field c (state s) = tally c s).

Definition real (f : File) : Prop := Path f <> EmptyString.

(** Past the checker's test of the path there are only real Files. *)
Definition sentinel_free (s : System) : Prop :=
  Forall real (buf (chan2 s))
  /\ match checkerPC s with CNeeds f | CSend f => real f | _ => True end
  /\ match transferPC s with TPerform f => real f | _ => True end.

(** What the events so far say about the counters. *)
Definition journal (evs : list Event) (s : System) : Prop :=
  (forall c, writes c evs = if written c s then [(owner c, tally c s)] else [])
  /\ (forall st, terminated st s -> EvDone st ∈ evs)
  /\ ((exists ds ff nt tr, EvLog ds ff nt tr ∈ evs) -> mainPC s = MReturned)
  /\ (forall pre ds ff nt tr post,
        evs = pre ++ EvLog ds ff nt tr :: post ->
        (forall st, EvDone st ∈ pre)
        /\ (forall c, writes c pre = [(owner c, logged c ds ff nt tr)])
        /\ (forall c, writes c post = [])).

(** A listing that a cancelled scraper can still make: it is past its
    context check. *)
Definition pending (s : System) : nat :=
  match scraperPC s with SCheckedCtx => 1 | _ => 0 end.

(** [e] is stage [st] leaving its loop for good: it publishes a counter,
    or has received a File with an empty path. *)
Definition exit_event (st : Stage) (e : Event) : Prop :=
  match e with
  | EvWrite st' _ _ => st' = st
  | EvRecv st' f => st' = st /\ Path f = EmptyString
  | _ => False
  end.

End Pipeline.

End threads.

(** * Concrete instances

    A small remote world and a small job, on which the definitions above
    can be run. *)

Module fixtures.
Import objects.

Definition bytes (s : string) : list byte := String.list_byte_of_string s.

(** A stand-in for compress/gzip: a "compressed" document is the magic
    number followed by the payload, and an empty payload is a truncated
    archive. *)
#[export] Instance toyGzip : Gzip := {|
  GzipReader := list byte;
  gzip_NewReader := fun buf =>
    match buf with
    | x1f :: x8b :: x08 :: payload => Ok payload
    | _ => Err "gzip: invalid header"
    end;
  GzipReader_ReadAll := fun r =>
    match r with
    | [] => Err "unexpected EOF"
    | _ => Ok r
    end;
|}.

Definition gz (payload : list byte) : list byte := x1f :: x8b :: x08 :: payload.

(** A stand-in for the tokenizer of encoding/xml: the documents of the
    examples are element trees, written out by [render] and read back by
    table. A text that is none of them has no root element. *)
Fixpoint decode {A} (table : list (string * A)) (buf : list byte) : result Error A :=
  match table with
  | [] => Err "EOF"
  | (doc, a) :: table' => if bytes_Equal buf (bytes doc) then Ok a else decode table' buf
  end.

Definition renderAttrs (attrs : list (string * string)) : string :=
  fold_right (fun a acc => " " +:+ a.1 +:+ "='" +:+ a.2 +:+ "'" +:+ acc) EmptyString attrs.

Fixpoint render (n : Node) : string :=
  match n with
  | CharData text => text
  | Element name attrs nodes =>
    "<" +:+ name +:+ renderAttrs attrs +:+ ">"
    +:+ (fix renderAll (l : list Node) : string :=
           match l with
           | [] => EmptyString
           | n' :: l' => render n' +:+ renderAll l'
           end) nodes
    +:+ "</" +:+ name +:+ ">"
  end.

Definition xml (doc : Node) : list byte := bytes (render doc).

Definition entry (ty href : string) : RepomdEntry := mkRepomdEntry ty (mkLocation href).
Definition package (href : string) : PrimaryPackage := mkPrimaryPackage (mkLocation href).
Definition newpackage (href : string) : NewPackage := mkNewPackage (mkDelta href).

Definition dataElement (ty href : string) : Node :=
  Element "data" [("type", ty)]
    [Element "location" [("href", href)] []; Element "size" [] [CharData "1024"]].
Definition packageElement (name href : string) : Node :=
  Element "package" [("type", "rpm")]
    [Element "name" [] [CharData name]; Element "location" [("href", href)] []].
Definition deltaElement (oldversion filename : string) : Node :=
  Element "delta" [("oldversion", oldversion)]
    [Element "filename" [] [CharData filename]; Element "size" [] [CharData "512"]].
Definition newpackageElement (name : string) (deltas : list Node) : Node :=
  Element "newpackage" [("name", name); ("version", "1.0")] deltas.

Definition repomdFullDoc : Node :=
  Element "repomd" []
    [dataElement "primary" "repodata/primary.xml.gz";
     dataElement "filelists" "repodata/filelists.xml.gz";
     dataElement "prestodelta" "repodata/prestodelta.xml.gz"].
Definition repomdNoDeltaDoc : Node :=
  Element "repomd" [] [dataElement "primary" "repodata/primary.xml.gz"].
Definition repomdNoPrimaryDoc : Node :=
  Element "repomd" [] [dataElement "filelists" "repodata/filelists.xml.gz"].
Definition primaryOneDoc : Node :=
  Element "metadata" [("packages", "1")] [packageElement "pkg" "pkg-1.0.rpm"].
Definition primaryTwoDoc : Node :=
  Element "metadata" [("packages", "2")]
    [packageElement "a" "a-1.0.rpm"; packageElement "b" "b-2.0.rpm"].
Definition prestodeltaOneDoc : Node :=
  Element "prestodelta" []
    [newpackageElement "a" [deltaElement "0.9" "drpms/a-0.9_1.0.drpm"]].

(** A prestodelta index as createrepo writes it when two older versions
    of [a] are kept: one [<newpackage>] with two [<delta>] children. *)
Definition prestodeltaTwoDoc : Node :=
  Element "prestodelta" []
    [newpackageElement "a" [deltaElement "0.8" "drpms/a-0.8_1.0.drpm";
                            deltaElement "0.9" "drpms/a-0.9_1.0.drpm"];
     newpackageElement "b" [deltaElement "1.9" "drpms/b-1.9_2.0.drpm"]].

(** The error page of a web server, well-formed as XML. *)
Definition notFoundDoc : Node :=
  Element "html" []
    [Element "head" [] [Element "title" [] [CharData "404 Not Found"]];
     Element "body" []
       [Element "h1" [] [CharData "Not Found"];
        Element "p" [] [CharData "The requested URL was not found on this server."]]].

Definition documents : list Node :=
  [repomdFullDoc; repomdNoDeltaDoc; repomdNoPrimaryDoc; primaryOneDoc; primaryTwoDoc;
   prestodeltaOneDoc; prestodeltaTwoDoc; notFoundDoc].

#[export] Instance toyXML : XMLSyntax := decode (map (fun doc => (render doc, doc)) documents).

Definition repomdFull : Repomd :=
  mkRepomd [entry "primary" "repodata/primary.xml.gz";
            entry "filelists" "repodata/filelists.xml.gz";
            entry "prestodelta" "repodata/prestodelta.xml.gz"].
Definition repomdNoDelta : Repomd := mkRepomd [entry "primary" "repodata/primary.xml.gz"].
Definition repomdNoPrimary : Repomd := mkRepomd [entry "filelists" "repodata/filelists.xml.gz"].
Definition primaryOne : Primary := mkPrimary [package "pkg-1.0.rpm"].
Definition primaryTwo : Primary := mkPrimary [package "a-1.0.rpm"; package "b-2.0.rpm"].
Definition prestodeltaOne : Prestodelta := mkPrestodelta [newpackage "drpms/a-0.9_1.0.drpm"].

#[export] Instance toyRepomd : XMLTarget Repomd := unmarshalWith unmarshalRepomd.
#[export] Instance toyPrimary : XMLTarget Primary := unmarshalWith unmarshalPrimary.
#[export] Instance toyPrestodelta : XMLTarget Prestodelta := unmarshalWith unmarshalPrestodelta.

(** The servers: what a GET of each URL answers, the body given as what
    reading it to the end yields. *)
Definition ToyBody : Type := result Error (list byte).

Definition servers : list (string * result Error (Response ToyBody)) :=
  [("http://full/repodata/repomd.xml", Ok (mkResponse 200 (Ok (xml repomdFullDoc))));
   ("http://full/repodata/primary.xml.gz", Ok (mkResponse 200 (Ok (gz (xml primaryTwoDoc)))));
   ("http://full/repodata/prestodelta.xml.gz",
      Ok (mkResponse 200 (Ok (gz (xml prestodeltaOneDoc)))));
   ("http://nodelta/repodata/repomd.xml", Ok (mkResponse 200 (Ok (xml repomdNoDeltaDoc))));
   ("http://nodelta/repodata/primary.xml.gz",
      Ok (mkResponse 200 (Ok (gz (xml primaryOneDoc)))));
   ("http://noprimary/repodata/repomd.xml",
      Ok (mkResponse 200 (Ok (xml repomdNoPrimaryDoc))));
   ("http://missing/repodata/repomd.xml",
      Ok (mkResponse 404 (Ok (bytes "404 page not found"))));
   ("http://corrupt/repodata/repomd.xml", Ok (mkResponse 200 (Ok (gz []))));
   ("http://truncated/repodata/repomd.xml", Ok (mkResponse 200 (Err "unexpected EOF")));
   (* the primary index cannot be reached *)
   ("http://primarydown/repodata/repomd.xml",
      Ok (mkResponse 200 (Ok (xml repomdNoDeltaDoc))));
   (* the prestodelta index is a truncated archive *)
   ("http://deltacorrupt/repodata/repomd.xml", Ok (mkResponse 200 (Ok (xml repomdFullDoc))));
   ("http://deltacorrupt/repodata/primary.xml.gz",
      Ok (mkResponse 200 (Ok (gz (xml primaryTwoDoc)))));
   ("http://deltacorrupt/repodata/prestodelta.xml.gz", Ok (mkResponse 200 (Ok (gz []))));
   (* the primary index is gone: the server answers 404 with its error page *)
   ("http://lostprimary/repodata/repomd.xml",
      Ok (mkResponse 200 (Ok (xml repomdNoDeltaDoc))));
   ("http://lostprimary/repodata/primary.xml.gz", Ok (mkResponse 404 (Ok (xml notFoundDoc))));
   (* repomd.xml itself is gone *)
   ("http://lostrepomd/repodata/repomd.xml", Ok (mkResponse 404 (Ok (xml notFoundDoc))));
   (* two deltas for one new package *)
   ("http://twodeltas/repodata/repomd.xml", Ok (mkResponse 200 (Ok (xml repomdFullDoc))));
   ("http://twodeltas/repodata/primary.xml.gz",
      Ok (mkResponse 200 (Ok (gz (xml primaryTwoDoc)))));
   ("http://twodeltas/repodata/prestodelta.xml.gz",
      Ok (mkResponse 200 (Ok (gz (xml prestodeltaTwoDoc)))))].

Fixpoint serve (table : list (string * result Error (Response ToyBody))) (url : string)
  : result Error (Response ToyBody) :=
  match table with
  | [] => Err "dial tcp: connection refused"
  | (u, r) :: table' => if String.eqb u url then r else serve table' url
  end.

(** The world is the list of URLs requested so far; a URLSource is its
    base URL. *)
#[export] Instance toyPlatform : Platform := {|
  World := list string;
  URLSource := string;
  FileState := unit;
  getURLForPath := fun base path => base +:+ path;
  URLSource_Validate := fun _ _ => [];
  URLSource_Connect := fun u => ret (u, None);
  URLSource_ListEntries := fun u dir => ret (Ok []);
  URLSource_ListAllFiles := fun u => ret (Ok []);
  Request := string;
  BodyT := ToyBody;
  URLSource_GetFile := fun u path st w =>
    match serve servers (u +:+ path) with
    | Ok resp => ((Some (Body resp), st, None), w ++ [u +:+ path])
    | Err err => ((None, st, Some err), w ++ [u +:+ path])
    end;
  http_NewRequest := fun method url =>
    if String.eqb url "http://bad host/repodata/repomd.xml"
    then Err "invalid character in host name"
    else Ok url;
  HTTPClient_Do := fun _ req w => (serve servers req, w ++ [req]);
  Body_ReadAll := fun b => ret b;
  Body_Close := fun _ => ret tt;
|}.

Definition yum (base : string) : YumSource := mkYumSource (base : URLSource).

End fixtures.

Module pipeline_fixtures.
Import threads.

(** A job whose scraper returns the configured directories one by one, and
    a destination that holds the names of the objects written so far. *)
#[export] Instance toyWorkers : Workers := {|
  Configuration := list (list (FileT unit));
  FileRest := unit;
  zeroRest := tt;
  SwiftConn := list string;
  NeedsTransfer := fun f conn => (negb (bool_decide (Path f ∈ conn)), conn);
  PerformTransfer := fun f conn => (true, conn ++ [Path f]);
  Scraper := list (list (FileT unit));
  NewScraper := fun cfg => cfg;
  Scraper_Done := fun sc => match sc with [] => true | _ => false end;
  Scraper_Next := fun sc => match sc with [] => ([], []) | d :: ds => (d, ds) end;
|}.

Definition file (path : string) : File := mkFile path tt.

Definition job (cfg : Configuration) (stored : list string) : SharedState :=
  mkSharedState cfg false stored 0 0 0 0 0.

(** One directory with [a.txt] and [b.txt], run to the end. *)
Definition twoFiles : Configuration := [[file "a.txt"; file "b.txt"]].

Definition fullSchedule : list Action :=
  [AMain; AMain] ++ repeat AScraper 13 ++ repeat (AChecker CaseIn) 10
  ++ repeat (ATransfer CaseIn) 7 ++ [AMain; AMain].

(** A directory listing that holds a File with an empty path. *)
Definition emptyPathJob : Configuration := [[file EmptyString; file "a.txt"]].

Definition scraperForwardsEmpty : list Action := repeat AScraper 4.

(** A signal arrives while [a.txt] and [b.txt] are queued. *)
Definition cancelThenPull : list Action :=
  [AMain; AMain] ++ repeat AScraper 6 ++ [ASignal; AChecker CaseIn; AChecker CaseIn].

(** A signal arrives between the scraper's context check and its listing. *)
Definition cancelThenList : list Action := [AScraper; ASignal; AScraper].

End pipeline_fixtures.


(** * The definitions on small inputs *)

Section examples.
Import objects threads fixtures.

Example HasPrefix_gzip : bytes_HasPrefix (gz (xml primaryOneDoc)) gzipMagic = true.
Proof. reflexivity. Qed.

Example HasPrefix_short : bytes_HasPrefix [Byte.x1f; Byte.x8b] gzipMagic = false.
Proof. reflexivity. Qed.

Example HasPrefix_xml : bytes_HasPrefix (bytes "<?xml version") gzipMagic = false.
Proof. reflexivity. Qed.

Example render_repomd :
  render repomdNoDeltaDoc =
  "<repomd><data type='primary'><location href='repodata/primary.xml.gz'></location>"
  +:+ "<size>1024</size></data></repomd>".
Proof. reflexivity. Qed.

Example unmarshal_repomd : unmarshalRepomd repomdFullDoc = repomdFull.
Proof. reflexivity. Qed.

Example unmarshal_primary : unmarshalPrimary primaryTwoDoc = primaryTwo.
Proof. reflexivity. Qed.

Example unmarshal_prestodelta : unmarshalPrestodelta prestodeltaOneDoc = prestodeltaOne.
Proof. reflexivity. Qed.

(** The second [<delta>] of a [<newpackage>] overwrites the first. *)
Example unmarshal_two_deltas :
  unmarshalPrestodelta prestodeltaTwoDoc =
  mkPrestodelta [newpackage "drpms/a-0.9_1.0.drpm"; newpackage "drpms/b-1.9_2.0.drpm"].
Proof. reflexivity. Qed.

(** A document of another kind has none of the elements looked for. *)
Example unmarshal_error_page :
  unmarshalRepomd notFoundDoc = mkRepomd [] /\ unmarshalPrimary notFoundDoc = mkPrimary [].
Proof. split; reflexivity. Qed.

Example tokenize_plain_text : xml_Tokenize (bytes "404 page not found") = Err "EOF".
Proof. vm_compute. reflexivity. Qed.

Example lastHref_overwritten :
  lastHref "primary" [entry "primary" "old.xml"; entry "other" "o.xml";
                      entry "primary" "new.xml"] = Some "new.xml".
Proof. reflexivity. Qed.

Example hrefsByType_overwritten :
  hrefsByType [entry "primary" "old.xml"; entry "other" "o.xml";
               entry "primary" "new.xml"] !! "primary" = Some "new.xml".
Proof. vm_compute. reflexivity. Qed.

Example incr_wraps : incr (2 ^ 64 - 1) = 0%Z.
Proof. reflexivity. Qed.

Example send_on_full_channel_blocks :
  chan_send (mkChan (repeat (pipeline_fixtures.file "a.txt") 10) false)
            (pipeline_fixtures.file "b.txt") = None.
Proof. reflexivity. Qed.

Example recv_on_closed_channel :
  chan_recv (W := pipeline_fixtures.toyWorkers) (mkChan [] true)
  = Some (zeroFile, mkChan [] true).
Proof. reflexivity. Qed.

Example recv_on_open_empty_channel_blocks :
  chan_recv (W := pipeline_fixtures.toyWorkers) (mkChan [] false) = None.
Proof. reflexivity. Qed.

End examples.


(** * Properties of the Yum source *)

Section bytes_facts.

Lemma bytes_Equal_eq (a b : list byte) : bytes_Equal a b = true <-> a = b.
Proof.
  revert b. induction a as [|x a IH]; intros [|y b]; simpl; try (split; congruence).
  rewrite andb_true_iff, IH. split.
  - intros [Hxy ->]. apply Byte.byte_dec_bl in Hxy. by subst.
  - intros [= -> ->]. split; [apply Byte.byte_dec_lb|]; done.
Qed.

Lemma bytes_HasPrefix_spec (s prefix : list byte) :
  bytes_HasPrefix s prefix = true <-> exists rest, s = prefix ++ rest.
Proof.
  unfold bytes_HasPrefix. rewrite andb_true_iff, bytes_Equal_eq, Nat.leb_le. split.
  - intros [_ Heq]. exists (drop (length prefix) s).
    rewrite <- Heq at 1. by rewrite take_drop.
  - intros [rest ->]. split.
    + rewrite length_app. lia.
    + by rewrite take_app_length.
Qed.

End bytes_facts.

Section yum_lists.
Import objects.

Lemma noteEntries_fold (es : list RepomdEntry) (acc : list FileSpec * gmap string string) :
  fold_left noteEntry es acc =
  (acc.1 ++ dataFiles es,
   fold_left (fun m e => <[entry_Type e := Href (entry_Location e)]> m) es acc.2).
Proof.
  revert acc. induction es as [|e es IH]; intros [files m]; simpl.
  - by rewrite app_nil_r.
  - rewrite IH. simpl. by rewrite <- app_assoc.
Qed.

Lemma noteEntries_files (es : list RepomdEntry) :
  (noteEntries es).1 = mkFileSpec repomdPath :: dataFiles es.
Proof. unfold noteEntries. by rewrite noteEntries_fold. Qed.

Lemma noteEntries_pair (es : list RepomdEntry) :
  noteEntries es = (mkFileSpec repomdPath :: dataFiles es, hrefsByType es).
Proof.
  unfold hrefsByType. rewrite <- noteEntries_files. by destruct (noteEntries es).
Qed.

Lemma hrefs_fold_lookup (es : list RepomdEntry) (m : gmap string string) (ty : string) :
  fold_left (fun m e => <[entry_Type e := Href (entry_Location e)]> m) es m !! ty =
  fold_left (fun acc e => if decide (entry_Type e = ty)
                          then Some (Href (entry_Location e)) else acc)
            es (m !! ty).
Proof.
  revert m. induction es as [|e es IH]; intros m; simpl; [done|].
  rewrite IH. f_equal. destruct (decide (entry_Type e = ty)) as [<-|Hne].
  - by rewrite lookup_insert_eq.
  - by rewrite lookup_insert_ne.
Qed.

(** The map holds, for each type, the href of the last entry of that type. *)
Lemma hrefsByType_lookup (es : list RepomdEntry) (ty : string) :
  hrefsByType es !! ty = lastHref ty es.
Proof.
  unfold hrefsByType, noteEntries. rewrite noteEntries_fold. simpl.
  by rewrite hrefs_fold_lookup, lookup_empty.
Qed.

Lemma lastHref_fold_is_Some (es : list RepomdEntry) (ty : string) (acc : option string) :
  is_Some (fold_left (fun acc e => if decide (entry_Type e = ty)
                                   then Some (Href (entry_Location e)) else acc)
                     es acc)
  <-> is_Some acc \/ ty ∈ map entry_Type es.
Proof.
  revert acc. induction es as [|e es IH]; intros acc; simpl.
  - rewrite elem_of_nil. tauto.
  - rewrite IH, elem_of_cons. destruct (decide (entry_Type e = ty)) as [<-|Hne].
    + split; [intros _; right; by left | intros _; left; eauto].
    + split; [tauto|]. intros [?|[?|?]]; [tauto|congruence|tauto].
Qed.

(** A type has an href exactly when some entry carries it. *)
Lemma hrefsByType_is_Some (es : list RepomdEntry) (ty : string) :
  is_Some (hrefsByType es !! ty) <-> ty ∈ map entry_Type es.
Proof.
  rewrite hrefsByType_lookup. unfold lastHref. rewrite lastHref_fold_is_Some.
  split; [intros [[? [=]]|?]; done | by right].
Qed.

Lemma hrefsByType_None (es : list RepomdEntry) (ty : string) :
  hrefsByType es !! ty = None <-> ty ∉ map entry_Type es.
Proof.
  rewrite <- hrefsByType_is_Some, eq_None_not_Some. tauto.
Qed.

Lemma appendPackages_app (files : list FileSpec) (pkgs : list PrimaryPackage) :
  appendPackages files pkgs = files ++ packageFiles pkgs.
Proof.
  unfold appendPackages. revert files.
  induction pkgs as [|p pkgs IH]; intros files; simpl.
  - by rewrite app_nil_r.
  - rewrite IH. by rewrite <- app_assoc.
Qed.

Lemma appendDeltas_app (files : list FileSpec) (pkgs : list NewPackage) :
  appendDeltas files pkgs = files ++ deltaFiles pkgs.
Proof.
  unfold appendDeltas. revert files.
  induction pkgs as [|p pkgs IH]; intros files; simpl.
  - by rewrite app_nil_r.
  - rewrite IH. by rewrite <- app_assoc.
Qed.

End yum_lists.

Section yum_facts.
Import objects.
Context `{P : Platform} `{G : Gzip}.
Context `{XRepomd : XMLTarget Repomd}
        `{XPrimary : XMLTarget Primary}
        `{XPrestodelta : XMLTarget Prestodelta}.

(** The URL that a path of the source [s] is fetched from. *)
Local Abbreviation urlOf s path := (getURLForPath (asURLSource s) path).

Local Ltac run_monad := unfold bind, ret in *; simpl in *.

(** getFileContents, one case per way it can end. *)
Lemma getFileContents_cases (s : YumSource) (path : string) (w : World) :
  getFileContents s path w =
  match http_NewRequest "GET" (urlOf s path) with
  | Err err => ((urlOf s path, Err (mkListEntriesError (urlOf s path) ("GET failed: " +:+ err))), w)
  | Ok req =>
    match HTTPClient_Do (asURLSource s) req w with
    | (Err err, w1) =>
      ((urlOf s path, Err (mkListEntriesError (urlOf s path) ("GET failed: " +:+ err))), w1)
    | (Ok resp, w1) =>
      match Body_ReadAll (Body resp) w1 with
      | (Err err, w2) =>
        ((urlOf s path, Err (mkListEntriesError (urlOf s path) ("GET failed: " +:+ err))),
         (Body_Close (Body resp) w2).2)
      | (Ok contents, w2) => ((urlOf s path, Ok contents), (Body_Close (Body resp) w2).2)
      end
    end
  end.
Proof.
  unfold getFileContents. destruct (http_NewRequest _ _) as [req|err]; [|done].
  run_monad. destruct (HTTPClient_Do _ req w) as [[resp|err] w1]; [|done].
  destruct (Body_ReadAll (Body resp) w1) as [[contents|err] w2];
    by destruct (Body_Close (Body resp) w2).
Qed.

Lemma getFileContents_uri (s : YumSource) (path : string) (w : World) :
  (getFileContents s path w).1.1 = urlOf s path.
Proof.
  rewrite getFileContents_cases.
  destruct (http_NewRequest _ _) as [req|err]; [|done].
  destruct (HTTPClient_Do _ req w) as [[resp|err] w1]; [|done].
  by destruct (Body_ReadAll (Body resp) w1) as [[contents|err] w2].
Qed.

Lemma getFileContents_err (s : YumSource) (path : string) (w : World) (e : ListEntriesError) :
  (getFileContents s path w).1.2 = Err e ->
  Location e = urlOf s path /\ exists err, Message e = "GET failed: " +:+ err.
Proof.
  rewrite getFileContents_cases.
  destruct (http_NewRequest _ _) as [req|err]; [|intros [= <-]; eauto].
  destruct (HTTPClient_Do _ req w) as [[resp|err] w1]; [|intros [= <-]; eauto].
  destruct (Body_ReadAll (Body resp) w1) as [[contents|err] w2];
    simpl; [done|intros [= <-]; eauto].
Qed.

(** downloadAndParseXML in terms of what getFileContents returned. *)
Lemma downloadAndParseXML_cases {A} `{XMLTarget A} (s : YumSource) (path : string) (w : World) :
  downloadAndParseXML s path w =
  let c := getFileContents s path w in
  (match c.1.2 with
   | Err lerr => (c.1.1, Err lerr)
   | Ok buf =>
     match (if bytes_HasPrefix buf gzipMagic then gunzip buf else Ok buf) with
     | Err err =>
       (c.1.1, Err (mkListEntriesError c.1.1
                      ("error while decompressing GZip archive: " +:+ err)))
     | Ok buf' => (c.1.1, parsedAt c.1.1 (xml_Unmarshal buf'))
     end
   end, c.2).
Proof.
  unfold downloadAndParseXML. run_monad.
  destruct (getFileContents s path w) as [[uri [buf|lerr]] w']; simpl; [|done].
  destruct (if bytes_HasPrefix buf gzipMagic then gunzip buf else Ok buf) as [buf'|err];
    [|done].
  unfold parsedAt. by destruct (xml_Unmarshal buf').
Qed.

Lemma downloadAndParseXML_uri {A} `{XMLTarget A} (s : YumSource) (path : string) (w : World) :
  (downloadAndParseXML s path w).1.1 = urlOf s path.
Proof.
  rewrite downloadAndParseXML_cases. simpl. rewrite <- (getFileContents_uri s path w).
  destruct ((getFileContents s path w).1.2) as [buf|lerr]; [|done].
  by destruct (if bytes_HasPrefix buf gzipMagic then gunzip buf else Ok buf).
Qed.

Lemma downloadAndParseXML_err {A} `{XMLTarget A} (s : YumSource) (path : string) (w : World)
    (e : ListEntriesError) :
  (downloadAndParseXML s path w).1.2 = Err e -> Location e = urlOf s path.
Proof.
  rewrite downloadAndParseXML_cases. simpl.
  pose proof (getFileContents_uri s path w) as Huri.
  destruct ((getFileContents s path w).1.2) as [buf|lerr] eqn:Hc; simpl.
  - destruct (if bytes_HasPrefix buf gzipMagic then gunzip buf else Ok buf) as [buf'|err];
      simpl.
    + unfold parsedAt. destruct (xml_Unmarshal buf'); [done|]. intros [= <-]. done.
    + intros [= <-]. done.
  - intros [= ->]. by apply getFileContents_err in Hc as [-> _].
Qed.

(** ListAllFiles, one case per way it can end; the lists are written with
    [dataFiles], [packageFiles], [deltaFiles], the map with [hrefsByType]. *)
Lemma ListAllFiles_cases (s : YumSource) (w : World) :
  YumSource_ListAllFiles s w =
  let d0 := downloadAndParseXML (A := Repomd) s repomdPath w in
  match d0.1.2 with
  | Err lerr => (Err lerr, d0.2)
  | Ok repomd =>
    match hrefsByType (Entries repomd) !! "primary" with
    | None =>
      (Err (mkListEntriesError d0.1.1 "cannot find link to primary.xml.gz in repomd.xml"),
       d0.2)
    | Some hp =>
      let d1 := downloadAndParseXML (A := Primary) s hp d0.2 in
      match d1.1.2 with
      | Err lerr => (Err lerr, d1.2)
      | Ok primary =>
        match hrefsByType (Entries repomd) !! "prestodelta" with
        | None =>
          (Ok (mkFileSpec repomdPath :: dataFiles (Entries repomd)
                 ++ packageFiles (primary_Packages primary)), d1.2)
        | Some hd =>
          let d2 := downloadAndParseXML (A := Prestodelta) s hd d1.2 in
          match d2.1.2 with
          | Err lerr => (Err lerr, d2.2)
          | Ok prestodelta =>
            (Ok (mkFileSpec repomdPath :: dataFiles (Entries repomd)
                   ++ packageFiles (primary_Packages primary)
                   ++ deltaFiles (prestodelta_Packages prestodelta)), d2.2)
          end
        end
      end
    end
  end.
Proof.
  unfold YumSource_ListAllFiles. unfold bind at 1. simpl.
  destruct (downloadAndParseXML s repomdPath w) as [[u0 [repomd|lerr]] w1]; simpl; [|done].
  rewrite noteEntries_pair.
  destruct (hrefsByType (Entries repomd) !! "primary") as [hp|]; [|done].
  unfold bind at 1.
  destruct (downloadAndParseXML s hp w1) as [[u1 [primary|lerr]] w2]; simpl; [|done].
  rewrite appendPackages_app.
  destruct (hrefsByType (Entries repomd) !! "prestodelta") as [hd|]; [|done].
  unfold bind at 1.
  destruct (downloadAndParseXML s hd w2) as [[u2 [prestodelta|lerr]] w3]; simpl; [|done].
  rewrite appendDeltas_app. unfold ret. simpl. by rewrite <- app_assoc.
Qed.

End yum_facts.

Section yum_claims.
Import objects.
Context `{P : Platform} `{G : Gzip}.
Context `{XRepomd : XMLTarget Repomd}
        `{XPrimary : XMLTarget Primary}
        `{XPrestodelta : XMLTarget Prestodelta}.

Local Abbreviation urlOf s path := (getURLForPath (asURLSource s) path).

(** C4. When the decoded repomd.xml has no [primary] entry, ListAllFiles
    fails with a ListEntriesError located at the URL of repomd.xml. When
    it has a [primary] entry and no [prestodelta] entry (and the primary
    index is fetched and decoded), ListAllFiles succeeds with
    repomd.xml, the data hrefs and the package hrefs and nothing else, and
    fetches nothing after the primary index. *)
Theorem ListAllFiles_missing_index (s : YumSource) (w0 w1 : World) (u0 : string)
    (repomd : Repomd) :
  downloadAndParseXML s repomdPath w0 = ((u0, Ok repomd), w1) ->
  ("primary" ∉ map entry_Type (Entries repomd) ->
   YumSource_ListAllFiles s w0 =
     (Err {| Location := urlOf s "repodata/repomd.xml";
             Message := "cannot find link to primary.xml.gz in repomd.xml" |}, w1))
  /\ (forall (hp u1 : string) (primary : Primary) (w2 : World),
        "prestodelta" ∉ map entry_Type (Entries repomd) ->
        lastHref "primary" (Entries repomd) = Some hp ->
        downloadAndParseXML s hp w1 = ((u1, Ok primary), w2) ->
        YumSource_ListAllFiles s w0 =
          (Ok ([mkFileSpec "repodata/repomd.xml"]
                 ++ dataFiles (Entries repomd)
                 ++ packageFiles (primary_Packages primary)), w2)).
Proof.
  intros H0. pose proof (downloadAndParseXML_uri (A := Repomd) s repomdPath w0) as Hu.
  rewrite H0 in Hu. simpl in Hu. split.
  - intros Hno%hrefsByType_None. rewrite ListAllFiles_cases. simpl.
    rewrite H0. simpl. by rewrite Hno, Hu.
  - intros hp u1 primary w2 Hno%hrefsByType_None Hp H1.
    rewrite ListAllFiles_cases. simpl. rewrite H0. simpl.
    rewrite hrefsByType_lookup, Hp, H1. simpl. by rewrite Hno.
Qed.

(** C5. A fetched document is gzip-decompressed before it is decoded
    exactly when it begins with the bytes 1f 8b 08: without that prefix
    the fetched bytes are decoded as they are; with it the decompressed
    bytes are decoded, and a failing decompression is a ListEntriesError
    at the document's URL. *)
Theorem gzip_detection {A} `{XMLTarget A} (s : YumSource) (path : string) (w w' : World)
    (uri : string) (buf : list byte) :
  getFileContents s path w = ((uri, Ok buf), w') ->
  uri = urlOf s path
  /\ (bytes_HasPrefix buf gzipMagic = true
      <-> exists payload, buf = [Byte.x1f; Byte.x8b; Byte.x08] ++ payload)
  /\ (bytes_HasPrefix buf gzipMagic = false ->
      downloadAndParseXML s path w = ((uri, parsedAt uri (xml_Unmarshal buf)), w'))
  /\ (bytes_HasPrefix buf gzipMagic = true ->
      forall plain, gunzip buf = Ok plain ->
      downloadAndParseXML s path w = ((uri, parsedAt uri (xml_Unmarshal plain)), w'))
  /\ (bytes_HasPrefix buf gzipMagic = true ->
      forall err, gunzip buf = Err err ->
      downloadAndParseXML s path w =
        ((uri, Err {| Location := uri;
                      Message := "error while decompressing GZip archive: " +:+ err |}), w')).
Proof.
  intros Hc. pose proof (getFileContents_uri s path w) as Hu.
  rewrite Hc in Hu. simpl in Hu. split; [done|].
  split; [apply bytes_HasPrefix_spec|].
  repeat split.
  - intros Hno. rewrite downloadAndParseXML_cases, Hc. simpl. by rewrite Hno.
  - intros Hgz plain Hplain. rewrite downloadAndParseXML_cases, Hc. simpl.
    by rewrite Hgz, Hplain.
  - intros Hgz err Herr. rewrite downloadAndParseXML_cases, Hc. simpl.
    by rewrite Hgz, Herr.
Qed.

(** C6. Each failure while a document is fetched and decoded (building the
    request, the GET, reading the body, decompressing, decoding) ends
    downloadAndParseXML with a ListEntriesError whose Location is the URL
    of that document, and no error of downloadAndParseXML has another
    Location. ListAllFiles returns the error of the first of its three
    documents that fails, as it is, and stops there; and an error that
    ListAllFiles returns is the error of one of its documents, located at
    the URL of that document, or the missing link to the primary index,
    located at the URL of repomd.xml. *)
Theorem enumeration_failures_located (s : YumSource) (w : World) :
  (forall A (X : XMLTarget A) (path : string),
     let uri := urlOf s path in
     let failure := fun msg => (uri, @Err ListEntriesError A (mkListEntriesError uri msg)) in
     (forall err,
        http_NewRequest "GET" uri = Err err ->
        downloadAndParseXML s path w = (failure ("GET failed: " +:+ err), w))
     /\ (forall req err w1,
           http_NewRequest "GET" uri = Ok req ->
           HTTPClient_Do (asURLSource s) req w = (Err err, w1) ->
           downloadAndParseXML s path w = (failure ("GET failed: " +:+ err), w1))
     /\ (forall req resp err w1 w2,
           http_NewRequest "GET" uri = Ok req ->
           HTTPClient_Do (asURLSource s) req w = (Ok resp, w1) ->
           Body_ReadAll (Body resp) w1 = (Err err, w2) ->
           downloadAndParseXML s path w =
             (failure ("GET failed: " +:+ err), (Body_Close (Body resp) w2).2))
     /\ (forall buf err w',
           getFileContents s path w = ((uri, Ok buf), w') ->
           bytes_HasPrefix buf gzipMagic = true ->
           gunzip buf = Err err ->
           downloadAndParseXML s path w =
             (failure ("error while decompressing GZip archive: " +:+ err), w'))
     /\ (forall buf buf' err w',
           getFileContents s path w = ((uri, Ok buf), w') ->
           (if bytes_HasPrefix buf gzipMagic then gunzip buf else Ok buf) = Ok buf' ->
           xml_Unmarshal buf' = Err err ->
           downloadAndParseXML s path w =
             (failure ("error while parsing XML: " +:+ err), w'))
     /\ (forall e,
           (downloadAndParseXML s path w).1.2 = Err e -> Location e = uri))
  /\ (let d0 := downloadAndParseXML (A := Repomd) s repomdPath w in
      (forall e, d0.1.2 = Err e ->
         YumSource_ListAllFiles s w = (Err e, d0.2) /\ Location e = urlOf s repomdPath)
      /\ (forall repomd hp e,
            d0.1.2 = Ok repomd ->
            lastHref "primary" (Entries repomd) = Some hp ->
            let d1 := downloadAndParseXML (A := Primary) s hp d0.2 in
            d1.1.2 = Err e ->
            YumSource_ListAllFiles s w = (Err e, d1.2) /\ Location e = urlOf s hp)
      /\ (forall repomd hp primary hd e,
            d0.1.2 = Ok repomd ->
            lastHref "primary" (Entries repomd) = Some hp ->
            let d1 := downloadAndParseXML (A := Primary) s hp d0.2 in
            d1.1.2 = Ok primary ->
            lastHref "prestodelta" (Entries repomd) = Some hd ->
            let d2 := downloadAndParseXML (A := Prestodelta) s hd d1.2 in
            d2.1.2 = Err e ->
            YumSource_ListAllFiles s w = (Err e, d2.2) /\ Location e = urlOf s hd))
  /\ (forall e,
        (YumSource_ListAllFiles s w).1 = Err e ->
        let d0 := downloadAndParseXML (A := Repomd) s repomdPath w in
        exists path,
          Location e = urlOf s path
          /\ ((path = "repodata/repomd.xml"
               /\ (d0.1.2 = Err e
                   \/ exists repomd,
                        d0.1.2 = Ok repomd
                        /\ lastHref "primary" (Entries repomd) = None
                        /\ Message e = "cannot find link to primary.xml.gz in repomd.xml"))
              \/ exists repomd,
                   d0.1.2 = Ok repomd
                   /\ ((lastHref "primary" (Entries repomd) = Some path
                        /\ (downloadAndParseXML (A := Primary) s path d0.2).1.2 = Err e)
                       \/ exists hp primary,
                            lastHref "primary" (Entries repomd) = Some hp
                            /\ (downloadAndParseXML (A := Primary) s hp d0.2).1.2 = Ok primary
                            /\ lastHref "prestodelta" (Entries repomd) = Some path
                            /\ (downloadAndParseXML (A := Prestodelta) s path
                                  (downloadAndParseXML (A := Primary) s hp d0.2).2).1.2
                               = Err e))).
Proof.
  split; [|split].
  - intros A X path uri failure. subst failure uri. repeat split.
    + intros err Hreq. rewrite downloadAndParseXML_cases, getFileContents_cases, Hreq. done.
    + intros req err w1 Hreq Hdo.
      rewrite downloadAndParseXML_cases, getFileContents_cases, Hreq, Hdo. done.
    + intros req resp err w1 w2 Hreq Hdo Hread.
      rewrite downloadAndParseXML_cases, getFileContents_cases, Hreq, Hdo, Hread. done.
    + intros buf err w' Hc Hgz Herr. rewrite downloadAndParseXML_cases, Hc. simpl.
      by rewrite Hgz, Herr.
    + intros buf buf' err w' Hc Hbuf Herr. rewrite downloadAndParseXML_cases, Hc. simpl.
      by rewrite Hbuf, Herr.
    + apply downloadAndParseXML_err.
  - cbv zeta. split; [|split].
    + intros e H0. split; [|by apply downloadAndParseXML_err in H0].
      rewrite ListAllFiles_cases. cbv zeta. by rewrite H0.
    + intros repomd hp e H0 Hp H1. split; [|by apply downloadAndParseXML_err in H1].
      rewrite ListAllFiles_cases. cbv zeta. by rewrite H0, hrefsByType_lookup, Hp, H1.
    + intros repomd hp primary hd e H0 Hp H1 Hd H2.
      split; [|by apply downloadAndParseXML_err in H2].
      rewrite ListAllFiles_cases. cbv zeta.
      by rewrite H0, !hrefsByType_lookup, Hp, H1, Hd, H2.
  - intros e. rewrite ListAllFiles_cases. cbv zeta.
    pose proof (downloadAndParseXML_uri (A := Repomd) s repomdPath w) as Hu.
    destruct ((downloadAndParseXML s repomdPath w).1.2) as [repomd|lerr] eqn:H0; simpl.
    2:{ intros [= ->]. exists repomdPath. split; [|left; split; [done|by left]].
        by apply downloadAndParseXML_err in H0. }
    rewrite !hrefsByType_lookup.
    destruct (lastHref "primary" (Entries repomd)) as [hp|] eqn:Hp; simpl.
    2:{ intros [= <-]. exists repomdPath. simpl. split; [done|].
        left. split; [done|]. right. by exists repomd. }
    destruct ((downloadAndParseXML s hp _).1.2) as [primary|lerr] eqn:H1; simpl.
    2:{ intros [= ->]. exists hp. split; [by apply downloadAndParseXML_err in H1|].
        right. exists repomd. split; [done|]. by left. }
    destruct (lastHref "prestodelta" (Entries repomd)) as [hd|] eqn:Hd; simpl; [|done].
    destruct ((downloadAndParseXML s hd _).1.2) as [prestodelta|lerr] eqn:H2; simpl; [done|].
    intros [= ->]. exists hd. split; [by apply downloadAndParseXML_err in H2|].
    right. exists repomd. split; [done|]. right. by exists hp, primary.
Qed.

(** C8. Validate, Connect and GetFile of a YumSource return what the
    same method of URLSource returns on the underlying value (Connect
    handing the updated value back as a YumSource); ListEntries does not
    delegate: it always fails with the "not implemented" error at the URL
    of the directory. *)
Theorem YumSource_delegates (s : YumSource) :
  (forall name, Validate s name = Validate (asURLSource s) name)
  /\ (forall w,
        Connect s w =
        let r := Connect (asURLSource s) w in ((mkYumSource r.1.1, r.1.2), r.2))
  /\ (forall path targetState w,
        GetFile s path targetState w = GetFile (asURLSource s) path targetState w)
  /\ (forall directoryPath w,
        ListEntries s directoryPath w =
        (Err {| Location := urlOf s directoryPath;
                Message := "ListEntries is not implemented for YumSource" |}, w))
  /\ (forall w, ListAllFiles s w = YumSource_ListAllFiles s w).
Proof.
  repeat split.
  intros w. simpl. unfold YumSource_Connect, bind, ret.
  by destruct (URLSource_Connect (asURLSource s) w) as [[u err] w'].
Qed.

(** C9, as far as the code goes. Whatever the status code of the response,
    getFileContents returns the whole body as the contents, with no
    error, and downloadAndParseXML treats it like the body of any
    document: it is decompressed when it has the gzip magic number, and
    decoded. A body that does not decode is reported as an XML error at
    that URL, and any error of downloadAndParseXML on such a response is a
    decompression or decoding error at that URL, never a "GET failed"
    one; a body that decodes is the document, and no error is reported at
    all. *)
Theorem getFileContents_ignores_status (s : YumSource) (path : string) (w w1 w2 : World)
    (req : Request) (code : Z) (body : BodyT) (contents : list byte) :
  http_NewRequest "GET" (urlOf s path) = Ok req ->
  HTTPClient_Do (asURLSource s) req w = (Ok (mkResponse code body), w1) ->
  Body_ReadAll body w1 = (Ok contents, w2) ->
  getFileContents s path w = ((urlOf s path, Ok contents), (Body_Close body w2).2)
  /\ (forall A (X : XMLTarget A) (err : Error),
        bytes_HasPrefix contents gzipMagic = false ->
        xml_Unmarshal contents = Err err ->
        downloadAndParseXML s path w =
          ((urlOf s path,
            Err {| Location := urlOf s path;
                   Message := "error while parsing XML: " +:+ err |}),
           (Body_Close body w2).2))
  /\ (forall A (X : XMLTarget A) (e : ListEntriesError),
        (downloadAndParseXML s path w).1.2 = Err e ->
        Location e = urlOf s path
        /\ exists err,
             Message e = "error while decompressing GZip archive: " +:+ err
             \/ Message e = "error while parsing XML: " +:+ err)
  /\ (forall A (X : XMLTarget A) (data : A),
        bytes_HasPrefix contents gzipMagic = false ->
        xml_Unmarshal contents = Ok data ->
        downloadAndParseXML s path w = ((urlOf s path, Ok data), (Body_Close body w2).2))
  /\ (forall A (X : XMLTarget A),
        downloadAndParseXML s path w =
          ((urlOf s path,
            match (if bytes_HasPrefix contents gzipMagic
                   then gunzip contents else Ok contents) with
            | Err err =>
              Err {| Location := urlOf s path;
                     Message := "error while decompressing GZip archive: " +:+ err |}
            | Ok buf' => parsedAt (urlOf s path) (xml_Unmarshal buf')
            end),
           (Body_Close body w2).2)).
Proof.
  intros Hreq Hdo Hread.
  assert (Hc : getFileContents s path w =
               ((urlOf s path, Ok contents), (Body_Close body w2).2)).
  { rewrite getFileContents_cases, Hreq, Hdo. simpl. by rewrite Hread. }
  split; [done|]. split; [|split; [|split]].
  - intros A X err Hno Herr. rewrite downloadAndParseXML_cases, Hc. simpl.
    by rewrite Hno, Herr.
  - intros A X e. rewrite downloadAndParseXML_cases, Hc. simpl.
    destruct (if bytes_HasPrefix contents gzipMagic then gunzip contents else Ok contents)
      as [buf'|err]; simpl.
    + unfold parsedAt. destruct (xml_Unmarshal buf') as [data|err]; [done|].
      intros [= <-]. eauto.
    + intros [= <-]. eauto.
  - intros A X data Hno Hdata. rewrite downloadAndParseXML_cases, Hc. simpl.
    by rewrite Hno, Hdata.
  - intros A X. rewrite downloadAndParseXML_cases, Hc. simpl.
    by destruct (if bytes_HasPrefix contents gzipMagic then gunzip contents else Ok contents).
Qed.

End yum_claims.

(** ** The properties at the concrete repositories *)

Section yum_witnesses.
Import objects fixtures.

Lemma ListAllFiles_missing_index_witness :
  YumSource_ListAllFiles (yum "http://noprimary/") [] =
    (Err {| Location := "http://noprimary/repodata/repomd.xml";
            Message := "cannot find link to primary.xml.gz in repomd.xml" |},
     ["http://noprimary/repodata/repomd.xml"])
  /\ YumSource_ListAllFiles (yum "http://nodelta/") [] =
       (Ok [mkFileSpec "repodata/repomd.xml";
            mkFileSpec "repodata/primary.xml.gz";
            mkFileSpec "pkg-1.0.rpm"],
        ["http://nodelta/repodata/repomd.xml"; "http://nodelta/repodata/primary.xml.gz"]).
Proof.
  split.
  - refine (proj1 (ListAllFiles_missing_index (yum "http://noprimary/") []
              ["http://noprimary/repodata/repomd.xml"]
              "http://noprimary/repodata/repomd.xml" repomdNoPrimary _) _).
    + vm_compute; reflexivity.
    + refine (bool_decide_unpack _ _). vm_compute. exact I.
  - refine (proj2 (ListAllFiles_missing_index (yum "http://nodelta/") []
              ["http://nodelta/repodata/repomd.xml"]
              "http://nodelta/repodata/repomd.xml" repomdNoDelta _)
              "repodata/primary.xml.gz" "http://nodelta/repodata/primary.xml.gz"
              primaryOne _ _ _ _).
    + vm_compute; reflexivity.
    + refine (bool_decide_unpack _ _). vm_compute. exact I.
    + vm_compute; reflexivity.
    + vm_compute; reflexivity.
Defined.

Lemma gzip_detection_witness :
  (* no magic number: decoded as fetched *)
  downloadAndParseXML (A := Repomd) (yum "http://nodelta/") "repodata/repomd.xml" [] =
    (("http://nodelta/repodata/repomd.xml", Ok repomdNoDelta),
     ["http://nodelta/repodata/repomd.xml"])
  (* magic number: the payload is decoded *)
  /\ downloadAndParseXML (A := Primary) (yum "http://nodelta/") "repodata/primary.xml.gz" [] =
       (("http://nodelta/repodata/primary.xml.gz", Ok primaryOne),
        ["http://nodelta/repodata/primary.xml.gz"])
  (* magic number on a truncated archive *)
  /\ downloadAndParseXML (A := Repomd) (yum "http://corrupt/") "repodata/repomd.xml" [] =
       (("http://corrupt/repodata/repomd.xml",
         Err {| Location := "http://corrupt/repodata/repomd.xml";
                Message := "error while decompressing GZip archive: unexpected EOF" |}),
        ["http://corrupt/repodata/repomd.xml"]).
Proof.
  split; [|split].
  - refine (proj1 (proj2 (proj2 (gzip_detection (A := Repomd) (yum "http://nodelta/")
              "repodata/repomd.xml" [] ["http://nodelta/repodata/repomd.xml"]
              "http://nodelta/repodata/repomd.xml" (xml repomdNoDeltaDoc) _))) _);
      vm_compute; reflexivity.
  - refine (proj1 (proj2 (proj2 (proj2 (gzip_detection (A := Primary) (yum "http://nodelta/")
              "repodata/primary.xml.gz" [] ["http://nodelta/repodata/primary.xml.gz"]
              "http://nodelta/repodata/primary.xml.gz" (gz (xml primaryOneDoc)) _))))
              _ (xml primaryOneDoc) _);
      vm_compute; reflexivity.
  - refine (proj2 (proj2 (proj2 (proj2 (gzip_detection (A := Repomd) (yum "http://corrupt/")
              "repodata/repomd.xml" [] ["http://corrupt/repodata/repomd.xml"]
              "http://corrupt/repodata/repomd.xml" (gz []) _))))
              _ "unexpected EOF" _);
      vm_compute; reflexivity.
Defined.

Lemma getFileContents_ignores_status_witness :
  getFileContents (yum "http://missing/") "repodata/repomd.xml" [] =
    (("http://missing/repodata/repomd.xml", Ok (bytes "404 page not found")),
     ["http://missing/repodata/repomd.xml"])
  /\ downloadAndParseXML (A := Repomd) (yum "http://missing/") "repodata/repomd.xml" [] =
       (("http://missing/repodata/repomd.xml",
         Err {| Location := "http://missing/repodata/repomd.xml";
                Message := "error while parsing XML: EOF" |}),
        ["http://missing/repodata/repomd.xml"])
  (* an error page that is well-formed XML is taken as the index *)
  /\ downloadAndParseXML (A := Primary) (yum "http://lostprimary/")
       "repodata/primary.xml.gz" [] =
       (("http://lostprimary/repodata/primary.xml.gz", Ok (mkPrimary [])),
        ["http://lostprimary/repodata/primary.xml.gz"]).
Proof.
  pose proof (getFileContents_ignores_status (yum "http://missing/")
                "repodata/repomd.xml" [] ["http://missing/repodata/repomd.xml"]
                ["http://missing/repodata/repomd.xml"]
                "http://missing/repodata/repomd.xml" 404 (Ok (bytes "404 page not found"))
                (bytes "404 page not found")) as Hthm.
  assert (Hreq : http_NewRequest "GET"
                   (getURLForPath (asURLSource (yum "http://missing/")) "repodata/repomd.xml")
                 = Ok "http://missing/repodata/repomd.xml") by (vm_compute; reflexivity).
  assert (Hdo : HTTPClient_Do (asURLSource (yum "http://missing/"))
                  "http://missing/repodata/repomd.xml" []
                = (Ok (mkResponse 404 (Ok (bytes "404 page not found"))),
                   ["http://missing/repodata/repomd.xml"])) by (vm_compute; reflexivity).
  assert (Hread : Body_ReadAll (Ok (bytes "404 page not found"))
                    ["http://missing/repodata/repomd.xml"]
                  = (Ok (bytes "404 page not found"),
                     ["http://missing/repodata/repomd.xml"])) by (vm_compute; reflexivity).
  destruct (Hthm Hreq Hdo Hread) as (Hbody & Hxml & _). split; [|split].
  - exact Hbody.
  - refine (Hxml Repomd _ "EOF" _ _); vm_compute; reflexivity.
  - refine (proj1 (proj2 (proj2 (proj2
              (getFileContents_ignores_status (yum "http://lostprimary/")
                 "repodata/primary.xml.gz" [] ["http://lostprimary/repodata/primary.xml.gz"]
                 ["http://lostprimary/repodata/primary.xml.gz"]
                 "http://lostprimary/repodata/primary.xml.gz" 404 (Ok (xml notFoundDoc))
                 (xml notFoundDoc) _ _ _)))) Primary _ (mkPrimary []) _ _);
      vm_compute; reflexivity.
Defined.

(** C9 as stated fails: the primary index is missing, the server answers
    404 with an error page that is well-formed XML, and the page is
    decoded as an index without packages: no error is reported. *)
Lemma missing_index_is_no_error :
  ~ missing_is_parse_error (A := Primary) (yum "http://lostprimary/")
      "repodata/primary.xml.gz" [].
Proof.
  intros H.
  destruct (H "http://lostprimary/repodata/primary.xml.gz"
              (mkResponse 404 (Ok (xml notFoundDoc)))
              ["http://lostprimary/repodata/primary.xml.gz"]
              (xml notFoundDoc)
              ["http://lostprimary/repodata/primary.xml.gz"])
    as (e & err & He & _); try (vm_compute; reflexivity).
  vm_compute in He. discriminate He.
Qed.

(** What the enumeration makes of it: a repository whose primary index is
    missing is listed as one without packages, and a missing repomd.xml is
    reported as a repomd.xml without a link to the primary index. *)
Example lost_primary_lists_no_package :
  YumSource_ListAllFiles (yum "http://lostprimary/") [] =
    (Ok [mkFileSpec "repodata/repomd.xml"; mkFileSpec "repodata/primary.xml.gz"],
     ["http://lostprimary/repodata/repomd.xml";
      "http://lostprimary/repodata/primary.xml.gz"]).
Proof. vm_compute. reflexivity. Qed.

Example lost_repomd_reports_missing_link :
  YumSource_ListAllFiles (yum "http://lostrepomd/") [] =
    (Err {| Location := "http://lostrepomd/repodata/repomd.xml";
            Message := "cannot find link to primary.xml.gz in repomd.xml" |},
     ["http://lostrepomd/repodata/repomd.xml"]).
Proof. vm_compute. reflexivity. Qed.

Lemma enumeration_failures_located_witness :
  (* the request cannot be built *)
  downloadAndParseXML (A := Repomd) (yum "http://bad host/") "repodata/repomd.xml" [] =
    (("http://bad host/repodata/repomd.xml",
      Err {| Location := "http://bad host/repodata/repomd.xml";
             Message := "GET failed: invalid character in host name" |}), [])
  (* the GET fails *)
  /\ downloadAndParseXML (A := Repomd) (yum "http://down/") "repodata/repomd.xml" [] =
       (("http://down/repodata/repomd.xml",
         Err {| Location := "http://down/repodata/repomd.xml";
                Message := "GET failed: dial tcp: connection refused" |}),
        ["http://down/repodata/repomd.xml"])
  (* the body cannot be read to its end *)
  /\ downloadAndParseXML (A := Repomd) (yum "http://truncated/") "repodata/repomd.xml" [] =
       (("http://truncated/repodata/repomd.xml",
         Err {| Location := "http://truncated/repodata/repomd.xml";
                Message := "GET failed: unexpected EOF" |}),
        ["http://truncated/repodata/repomd.xml"])
  (* the archive cannot be decompressed *)
  /\ downloadAndParseXML (A := Repomd) (yum "http://corrupt/") "repodata/repomd.xml" [] =
       (("http://corrupt/repodata/repomd.xml",
         Err {| Location := "http://corrupt/repodata/repomd.xml";
                Message := "error while decompressing GZip archive: unexpected EOF" |}),
        ["http://corrupt/repodata/repomd.xml"])
  (* the document cannot be decoded *)
  /\ downloadAndParseXML (A := Repomd) (yum "http://missing/") "repodata/repomd.xml" [] =
       (("http://missing/repodata/repomd.xml",
         Err {| Location := "http://missing/repodata/repomd.xml";
                Message := "error while parsing XML: EOF" |}),
        ["http://missing/repodata/repomd.xml"])
  (* the enumeration ends with the error of the index that failed *)
  /\ YumSource_ListAllFiles (yum "http://primarydown/") [] =
       (Err {| Location := "http://primarydown/repodata/primary.xml.gz";
               Message := "GET failed: dial tcp: connection refused" |},
        ["http://primarydown/repodata/repomd.xml";
         "http://primarydown/repodata/primary.xml.gz"])
  /\ YumSource_ListAllFiles (yum "http://deltacorrupt/") [] =
       (Err {| Location := "http://deltacorrupt/repodata/prestodelta.xml.gz";
               Message := "error while decompressing GZip archive: unexpected EOF" |},
        ["http://deltacorrupt/repodata/repomd.xml";
         "http://deltacorrupt/repodata/primary.xml.gz";
         "http://deltacorrupt/repodata/prestodelta.xml.gz"])
  (* an error of the whole enumeration is located at one of its documents *)
  /\ exists path, "http://down/repodata/repomd.xml" = "http://down/" +:+ path.
Proof.
  pose proof (fun base =>
    proj1 (enumeration_failures_located (yum base) []) Repomd _ "repodata/repomd.xml")
    as Hdoc. cbv zeta in Hdoc.
  pose proof (fun base => proj1 (proj2 (enumeration_failures_located (yum base) [])))
    as Hall. cbv zeta in Hall.
  repeat apply conj.
  - refine (proj1 (Hdoc "http://bad host/") "invalid character in host name" _).
    vm_compute; reflexivity.
  - refine (proj1 (proj2 (Hdoc "http://down/")) "http://down/repodata/repomd.xml"
              "dial tcp: connection refused" ["http://down/repodata/repomd.xml"] _ _);
      vm_compute; reflexivity.
  - refine (proj1 (proj2 (proj2 (Hdoc "http://truncated/")))
              "http://truncated/repodata/repomd.xml"
              (mkResponse 200 (Err "unexpected EOF")) "unexpected EOF"
              ["http://truncated/repodata/repomd.xml"]
              ["http://truncated/repodata/repomd.xml"] _ _ _);
      vm_compute; reflexivity.
  - refine (proj1 (proj2 (proj2 (proj2 (Hdoc "http://corrupt/"))))
              (gz []) "unexpected EOF" ["http://corrupt/repodata/repomd.xml"] _ _ _);
      vm_compute; reflexivity.
  - refine (proj1 (proj2 (proj2 (proj2 (proj2 (Hdoc "http://missing/")))))
              (bytes "404 page not found") (bytes "404 page not found") "EOF"
              ["http://missing/repodata/repomd.xml"] _ _ _);
      vm_compute; reflexivity.
  - refine (proj1 (proj1 (proj2 (Hall "http://primarydown/")) repomdNoDelta
              "repodata/primary.xml.gz"
              {| Location := "http://primarydown/repodata/primary.xml.gz";
                 Message := "GET failed: dial tcp: connection refused" |} _ _ _));
      vm_compute; reflexivity.
  - refine (proj1 (proj2 (proj2 (Hall "http://deltacorrupt/")) repomdFull
              "repodata/primary.xml.gz" primaryTwo "repodata/prestodelta.xml.gz"
              {| Location := "http://deltacorrupt/repodata/prestodelta.xml.gz";
                 Message := "error while decompressing GZip archive: unexpected EOF" |}
              _ _ _ _ _));
      vm_compute; reflexivity.
  - destruct (proj2 (proj2 (enumeration_failures_located (yum "http://down/") []))
                {| Location := "http://down/repodata/repomd.xml";
                   Message := "GET failed: dial tcp: connection refused" |})
      as (path & Hloc & _).
    + vm_compute; reflexivity.
    + exists path. exact Hloc.
Defined.

End yum_witnesses.

(** ** The deltas of a new package

    yum.go 114-120 declares [Delta] of a [<newpackage>] as a struct, not
    as a slice, and the loop of 125-127 appends one path per
    [<newpackage>]: where the index has several [<delta>] elements for one
    new package, only the filename of the last one is listed. *)

Section yum_deltas.
Import objects fixtures.

(** C1 on an index with two deltas for one new package: the document has
    three [<newpackage><delta>] filenames, ListAllFiles succeeds and
    returns two of them; [drpms/a-0.8_1.0.drpm] is dropped. *)
Theorem ListAllFiles_drops_deltas :
  documentDeltas prestodeltaTwoDoc =
    [mkFileSpec "drpms/a-0.8_1.0.drpm"; mkFileSpec "drpms/a-0.9_1.0.drpm";
     mkFileSpec "drpms/b-1.9_2.0.drpm"]
  /\ YumSource_ListAllFiles (yum "http://twodeltas/") [] =
       (Ok [mkFileSpec "repodata/repomd.xml";
            mkFileSpec "repodata/primary.xml.gz";
            mkFileSpec "repodata/filelists.xml.gz";
            mkFileSpec "repodata/prestodelta.xml.gz";
            mkFileSpec "a-1.0.rpm"; mkFileSpec "b-2.0.rpm";
            mkFileSpec "drpms/a-0.9_1.0.drpm"; mkFileSpec "drpms/b-1.9_2.0.drpm"],
        ["http://twodeltas/repodata/repomd.xml";
         "http://twodeltas/repodata/primary.xml.gz";
         "http://twodeltas/repodata/prestodelta.xml.gz"])
  /\ exists files,
       (YumSource_ListAllFiles (yum "http://twodeltas/") []).1 = Ok files
       /\ mkFileSpec "drpms/a-0.8_1.0.drpm" ∈ documentDeltas prestodeltaTwoDoc
       /\ mkFileSpec "drpms/a-0.8_1.0.drpm" ∉ files.
Proof.
  assert (Hdoc : documentDeltas prestodeltaTwoDoc =
            [mkFileSpec "drpms/a-0.8_1.0.drpm"; mkFileSpec "drpms/a-0.9_1.0.drpm";
             mkFileSpec "drpms/b-1.9_2.0.drpm"]) by (vm_compute; reflexivity).
  split; [exact Hdoc|]. split; [vm_compute; reflexivity|].
  exists [mkFileSpec "repodata/repomd.xml";
          mkFileSpec "repodata/primary.xml.gz";
          mkFileSpec "repodata/filelists.xml.gz";
          mkFileSpec "repodata/prestodelta.xml.gz";
          mkFileSpec "a-1.0.rpm"; mkFileSpec "b-2.0.rpm";
          mkFileSpec "drpms/a-0.9_1.0.drpm"; mkFileSpec "drpms/b-1.9_2.0.drpm"].
  split; [vm_compute; reflexivity|]. split.
  - rewrite Hdoc. apply elem_of_cons. by left.
  - intros Hin. repeat (apply elem_of_cons in Hin as [Hin|Hin]; [discriminate Hin|]).
    by apply elem_of_nil in Hin.
Qed.

(** C10 on the same index: the list starts with repodata/repomd.xml and
    has the data hrefs and the package hrefs in document order, but what
    follows them is one filename for each [<newpackage>], not all the
    delta filenames of the document in document order. *)
Theorem ListAllFiles_order_misses_deltas :
  exists files,
    (YumSource_ListAllFiles (yum "http://twodeltas/") []).1 = Ok files
    /\ head files = Some (mkFileSpec "repodata/repomd.xml")
    /\ files = [mkFileSpec "repodata/repomd.xml"]
               ++ dataFiles (Entries (unmarshalRepomd repomdFullDoc))
               ++ packageFiles (primary_Packages (unmarshalPrimary primaryTwoDoc))
               ++ [mkFileSpec "drpms/a-0.9_1.0.drpm"; mkFileSpec "drpms/b-1.9_2.0.drpm"]
    /\ files <> [mkFileSpec "repodata/repomd.xml"]
                ++ dataFiles (Entries (unmarshalRepomd repomdFullDoc))
                ++ packageFiles (primary_Packages (unmarshalPrimary primaryTwoDoc))
                ++ documentDeltas prestodeltaTwoDoc.
Proof.
  exists [mkFileSpec "repodata/repomd.xml";
          mkFileSpec "repodata/primary.xml.gz";
          mkFileSpec "repodata/filelists.xml.gz";
          mkFileSpec "repodata/prestodelta.xml.gz";
          mkFileSpec "a-1.0.rpm"; mkFileSpec "b-2.0.rpm";
          mkFileSpec "drpms/a-0.9_1.0.drpm"; mkFileSpec "drpms/b-1.9_2.0.drpm"].
  split; [vm_compute; reflexivity|]. split; [reflexivity|].
  split; [vm_compute; reflexivity|].
  vm_compute. discriminate.
Qed.

End yum_deltas.


(** * Properties of the worker pipeline *)

Section pipeline_facts.
Import threads.
Context `{W : Workers}.

Lemma run_app (acts1 acts2 : list Action) (s : System) :
  run (acts1 ++ acts2) s =
  match run acts1 s with
  | Some (evs1, s1) =>
    match run acts2 s1 with
    | Some (evs2, s2) => Some (evs1 ++ evs2, s2)
    | None => None
    end
  | None => None
  end.
Proof.
  revert s. induction acts1 as [|a acts1 IH]; intros s; simpl.
  - by destruct (run acts2 s) as [[evs2 s2]|].
  - destruct (step a s) as [[ev s']|]; [|done]. rewrite IH.
    destruct (run acts1 s') as [[evs1 s1]|]; [|done].
    destruct (run acts2 s1) as [[evs2 s2]|]; [|done].
    by rewrite app_assoc.
Qed.

Lemma run_snoc (acts : list Action) (a : Action) (s0 s' : System) (evs : list Event) :
  run (acts ++ [a]) s0 = Some (evs, s') ->
  exists evs0 s ev,
    run acts s0 = Some (evs0, s) /\ step a s = Some (ev, s') /\ evs = evs0 ++ ev.
Proof.
  rewrite run_app. destruct (run acts s0) as [[evs0 s]|]; [|done]. simpl.
  destruct (step a s) as [[ev s1]|] eqn:Hs; [|done]. intros [= <- <-].
  exists evs0, s, ev. by rewrite app_nil_r.
Qed.

(** Induction along a run, from its start. *)
Lemma run_invariant (I : list Event -> System -> Prop) (s0 : System) :
  I [] s0 ->
  (forall evs s a ev s', I evs s -> step a s = Some (ev, s') -> I (evs ++ ev) s') ->
  forall acts evs s, run acts s0 = Some (evs, s) -> I evs s.
Proof.
  intros H0 Hstep acts. induction acts as [|a acts IH] using rev_ind; intros evs s.
  - by intros [= <- <-].
  - intros (evs0 & s1 & ev & Hrun & Hs & ->)%run_snoc. eauto.
Qed.

(** All the ways a step can be taken: the state is opened into its fields
    and every test the step makes is decided. *)
Ltac open_system s :=
  destruct s as [[cfg cancelled conn wg DS FF NT TR] sc c1 c2 mpc spc ds ff cpc nt tpc tr sw].

Ltac step_cases H :=
  unfold step, Run, makeScraperThread_go, makeCheckerThread_go, makeTransferThread_go,
    makeCheckerThread, makeTransferThread, wg_Done, chan_send, chan_recv,
    with_state, with_scraperPC, with_checkerPC, with_transferPC, with_mainPC,
    with_chan1, with_chan2, with_scraper, with_filesFound, with_directoriesScanned,
    with_filesNeedTransfer, with_filesTransferred, with_signalWaiting in H;
  simpl in H;
  repeat match type of H with
         | context [match ?x with _ => _ end] =>
           lazymatch x with
           | context [match _ with _ => _ end] => fail
           | _ => destruct x eqn:?
           end
         end;
  simplify_eq.

Ltac all_stages H :=
  pose proof (H StScraper); pose proof (H StChecker); pose proof (H StTransfer).

Lemma step_consistent (wg0 : nat) (a : Action) (s s' : System) (ev : list Event) :
  consistent wg0 s -> step a s = Some (ev, s') -> consistent wg0 s'.
Proof.
  intros (Hwg & Hsp & Hf) Hs.
  pose proof (Hf CtrDirectoriesScanned) as Hf1.
  pose proof (Hf CtrFilesFound) as Hf2.
  pose proof (Hf CtrFilesNeedTransfer) as Hf3.
  pose proof (Hf CtrFilesTransferred) as Hf4. clear Hf.
  open_system s.
  unfold consistent, spawned, live, terminated in *; simpl in *.
  revert Hwg Hsp Hf1 Hf2 Hf3 Hf4.
  step_cases Hs.
  all: simpl; intros Hwg Hsp Hf1 Hf2 Hf3 Hf4.
  all: split; [ try destruct mpc; destruct_and?; simplify_eq; simpl in *; lia | ].
  all: split; [ | intros []; simpl; auto; done ].
  all: try destruct mpc; simpl in *; try all_stages Hsp;
       destruct_and?; simpl in *; try done; try congruence.
  intros []; [destruct spc | destruct cpc | destruct tpc]; simpl in *; (done || lia).
Qed.

Lemma step_sentinel_free (a : Action) (s s' : System) (ev : list Event) :
  sentinel_free s -> step a s = Some (ev, s') ->
  sentinel_free s'
  /\ forall e f, e ∈ ev -> works_on StChecker f e \/ works_on StTransfer f e -> real f.
Proof.
  intros (Hq & Hc & Ht) Hs. open_system s.
  unfold sentinel_free, path_empty in *; simpl in *.
  revert Hq Hc Ht. step_cases Hs.
  all: simpl; intros Hq Hc Ht.
  all: unfold path_empty in *.
  all: repeat match goal with
       | H : bool_decide _ = false |- _ => apply bool_decide_eq_false in H
       | H : Forall _ (_ :: _) |- _ => apply Forall_cons in H as [? ?]
       end.
  all: split;
       [ repeat split; simpl; try done;
         try (apply Forall_app; split; [done|by apply Forall_singleton]);
         try (match goal with E : buf _ = [] |- _ => by rewrite E end)
       | intros e f' He Hw;
         repeat (apply elem_of_cons in He as [->|He]);
         try (by apply elem_of_nil in He);
         simpl in Hw; destruct Hw as [Hw|Hw]; destruct_and?; simplify_eq; done ].
Qed.

(** Once a stage has left its loop it stays out and does nothing of what
    it does inside the loop. *)
Lemma step_left_loop (st : Stage) (a : Action) (s s' : System) (ev : list Event) :
  spawned s -> left_loop st s -> step a s = Some (ev, s') ->
  left_loop st s' /\ forall e, e ∈ ev -> ~ in_loop st e.
Proof.
  intros Hsp Hl Hs. open_system s. unfold left_loop, spawned in *; simpl in *.
  revert Hsp Hl. step_cases Hs.
  all: simpl; intros Hsp Hl.
  all: split;
       [ destruct st; simpl in *; destruct_and?; simplify_eq; done
       | intros e He;
         repeat (apply elem_of_cons in He as [->|He]);
         try (by apply elem_of_nil in He);
         destruct st; simpl in *; try done;
         try (intros (f' & Hw); simpl in Hw; destruct_and?; simplify_eq; done) ].
Qed.

Lemma writes_app (c : Counter) (evs1 evs2 : list Event) :
  writes c (evs1 ++ evs2) = writes c evs1 ++ writes c evs2.
Proof. apply omap_app. Qed.

(** Where an event of [evs ++ ev] lies. *)
Lemma app_eq_middle {A} (evs ev pre post : list A) (e : A) :
  evs ++ ev = pre ++ e :: post ->
  (exists post', evs = pre ++ e :: post' /\ post = post' ++ ev)
  \/ (exists pre', pre = evs ++ pre' /\ ev = pre' ++ e :: post).
Proof.
  revert pre. induction evs as [|x evs IH]; intros pre Heq; simpl in *.
  - right. by exists pre.
  - destruct pre as [|y pre]; simplify_eq/=.
    + left. by exists evs.
    + destruct (IH _ H0) as [(post' & -> & ->)|(pre' & -> & ->)].
      * left. by exists post'.
      * right. by exists pre'.
Qed.

(** After Run has returned only a signal can still arrive. *)
Lemma step_after_return (a : Action) (s s' : System) (ev : list Event) :
  spawned s -> mainPC s = MReturned -> step a s = Some (ev, s') ->
  ev = [EvCancel] /\ mainPC s' = MReturned.
Proof.
  intros Hsp Hm Hs. open_system s. unfold spawned, terminated in *; simpl in *. subst mpc.
  all_stages Hsp. simpl in *. subst. by step_cases Hs.
Qed.

(** The step that logs: it is the orchestrator's, past [Wait]. *)
Lemma step_log (a : Action) (s s' : System) (pre post : list Event) (vds vff vnt vtr : Z) :
  step a s = Some (pre ++ EvLog vds vff vnt vtr :: post, s') ->
  mainPC s = MLog /\ pre = [] /\ post = [EvCancel] /\ mainPC s' = MReturned
  /\ (forall c, logged c vds vff vnt vtr = field c (state s))
  /\ (forall c, written c s' = written c s /\ tally c s' = tally c s)
  /\ (forall st, terminated st s' <-> terminated st s).
Proof.
  intros Hs. open_system s.
  remember (pre ++ EvLog vds vff vnt vtr :: post) as ev eqn:Hev.
  step_cases Hs.
  all: destruct pre as [|e1 [|e2 [|e3 pre]]]; simpl in *; simplify_eq.
  repeat split; try done; by intros [].
Qed.

Lemma step_journal (wg0 : nat) (a : Action) (s s' : System) (evs ev : list Event) :
  consistent wg0 s -> journal evs s -> step a s = Some (ev, s') -> journal (evs ++ ev) s'.
Proof.
  intros (Hwg & Hsp & Hf) (Hw & Hd & Hl & Ho) Hs.
  assert (Hw' : forall c, writes c (evs ++ ev) =
                          if written c s' then [(owner c, tally c s')] else []).
  { pose proof (Hw CtrDirectoriesScanned) as Hw1.
    pose proof (Hw CtrFilesFound) as Hw2.
    pose proof (Hw CtrFilesNeedTransfer) as Hw3.
    pose proof (Hw CtrFilesTransferred) as Hw4.
    clear Hw Hd Hl Ho Hwg Hf. intros c. rewrite writes_app.
    open_system s. unfold spawned in Hsp. simpl in *.
    revert Hsp Hw1 Hw2 Hw3 Hw4. step_cases Hs.
    all: simpl; intros Hsp Hw1 Hw2 Hw3 Hw4.
    all: destruct c; simpl;
         first [ rewrite Hw1 | rewrite Hw2 | rewrite Hw3 | rewrite Hw4 ]; simpl;
         try done; try (by rewrite app_nil_r);
         destruct_and?; by simplify_eq. }
  assert (Hd' : forall st, terminated st s' -> EvDone st ∈ evs ++ ev).
  { pose proof (Hd StScraper) as Hd1.
    pose proof (Hd StChecker) as Hd2.
    pose proof (Hd StTransfer) as Hd3.
    clear Hw Hw' Hd Hl Ho Hwg Hsp Hf. intros st. rewrite elem_of_app.
    open_system s. unfold terminated in *. simpl in *. revert Hd1 Hd2 Hd3. step_cases Hs.
    all: simpl; intros Hd1 Hd2 Hd3.
    all: destruct st; simpl; intros Hst; simplify_eq;
         first [ left; auto; done | right; set_solver ]. }
  split; [done|]. split; [done|]. split.
  - intros (ds' & ff' & nt' & tr' & [Hin|Hin]%elem_of_app).
    + assert (Hm : mainPC s = MReturned).
      { apply Hl. by exists ds', ff', nt', tr'. }
      by destruct (step_after_return _ _ _ _ Hsp Hm Hs) as [_ ?].
    + apply list_elem_of_split in Hin as (pre & post & ->).
      by apply step_log in Hs as (_ & _ & _ & ? & _).
  - intros pre ds' ff' nt' tr' post
      [(post' & -> & ->)|(pre' & -> & ->)]%app_eq_middle.
    + destruct (Ho _ _ _ _ _ _ eq_refl) as (Hdone & Hpre & Hpost).
      assert (Hm : mainPC s = MReturned).
      { apply Hl. exists ds', ff', nt', tr'.
        rewrite elem_of_app, elem_of_cons. auto. }
      destruct (step_after_return _ _ _ _ Hsp Hm Hs) as [-> _].
      split; [done|]. split; [done|]. intros c. by rewrite writes_app, Hpost.
    + apply step_log in Hs as (Hm & -> & -> & Hm' & Hlog & Hsame & Hterm).
      rewrite app_nil_r. unfold spawned in Hsp. rewrite Hm in Hsp.
      split; [|split].
      * intros st. apply Hd, Hsp.
      * intros c. rewrite Hw, Hlog.
        assert (Hwr : written c s = true).
        { all_stages Hsp. unfold terminated in *.
          destruct c; simpl; by simplify_eq/=; repeat match goal with
            E : _ = _ |- _ => rewrite E end. }
        rewrite Hwr. by rewrite Hf.
      * by intros [].
Qed.


(** A stage that publishes a counter or receives an empty path is out of
    its loop. *)
Lemma step_exit_event (st : Stage) (a : Action) (s s' : System) (pre post : list Event)
    (e0 : Event) :
  step a s = Some (pre ++ e0 :: post, s') -> exit_event st e0 ->
  post = [] /\ left_loop st s'.
Proof.
  intros Hs He. open_system s.
  remember (pre ++ e0 :: post) as ev eqn:Hev.
  step_cases Hs.
  all: destruct pre as [|e1 [|e2 [|e3 pre]]]; simpl in *; simplify_eq; try done.
  all: unfold path_empty in *;
       repeat match goal with
       | H : bool_decide _ = false |- _ => apply bool_decide_eq_false in H
       end;
       unfold exit_event in He; destruct_and?; simplify_eq; try done.
Qed.

(** With the context cancelled, the only listing still to come is the one
    of a scraper that is past its context check. *)
Lemma step_listing (a : Action) (s s' : System) (ev : list Event) :
  Context_cancelled (state s) = true -> step a s = Some (ev, s') ->
  Context_cancelled (state s') = true /\ (listings ev + pending s' <= pending s)%nat.
Proof.
  intros Hc Hs. open_system s. unfold pending, listings. simpl in *. subst cancelled.
  step_cases Hs; simpl; split; (done || lia).
Qed.

Lemma step_cancel_event (a : Action) (s s' : System) (pre post : list Event) :
  step a s = Some (pre ++ EvCancel :: post, s') ->
  Context_cancelled (state s') = true /\ post = [].
Proof.
  intros Hs. open_system s.
  remember (pre ++ EvCancel :: post) as ev eqn:Hev.
  step_cases Hs.
  all: destruct pre as [|e1 [|e2 [|e3 pre]]]; simpl in *; simplify_eq; done.
Qed.

Lemma listings_app (evs1 evs2 : list Event) :
  listings (evs1 ++ evs2) = (listings evs1 + listings evs2)%nat.
Proof. unfold listings. by rewrite filter_app, length_app. Qed.

(** *** The invariants along a run *)

Lemma init_consistent (st0 : SharedState) :
  consistent (WaitGroup st0) (makeScraperThread st0).
Proof.
  split; [|split]; simpl.
  - unfold live. simpl. lia.
  - done.
  - by intros [].
Qed.

Lemma run_consistent (st0 : SharedState) (acts : list Action) (evs : list Event) (s : System) :
  runs st0 acts evs s -> consistent (WaitGroup st0) s.
Proof.
  apply (run_invariant (fun _ s => consistent (WaitGroup st0) s)).
  - apply init_consistent.
  - intros ? ? ? ? ? ? ?. by eapply step_consistent.
Qed.

Lemma run_journal (st0 : SharedState) (acts : list Action) (evs : list Event) (s : System) :
  runs st0 acts evs s -> journal evs s.
Proof.
  intros Hrun.
  cut (consistent (WaitGroup st0) s /\ journal evs s); [tauto|].
  revert acts evs s Hrun.
  apply (run_invariant (fun evs s => consistent (WaitGroup st0) s /\ journal evs s)).
  - split; [apply init_consistent|]. repeat split; simpl.
    + by intros [].
    + by intros [].
    + intros (? & ? & ? & ? & []%elem_of_nil).
    + by destruct pre.
    + by destruct pre.
    + by destruct pre.
  - intros evs s a ev s' [Hc Hj] Hs. split.
    + by eapply step_consistent.
    + by eapply step_journal.
Qed.

Lemma run_sentinel_free (st0 : SharedState) (acts : list Action) (evs : list Event)
    (s : System) :
  runs st0 acts evs s ->
  sentinel_free s
  /\ forall e f, e ∈ evs -> works_on StChecker f e \/ works_on StTransfer f e -> real f.
Proof.
  apply (run_invariant (fun evs s =>
    sentinel_free s
    /\ forall e f, e ∈ evs -> works_on StChecker f e \/ works_on StTransfer f e -> real f)).
  - split; [by repeat split|]. by intros e f ?%elem_of_nil.
  - intros evs0 s0 a ev s' [Hf Hev] Hs.
    destruct (step_sentinel_free _ _ _ _ Hf Hs) as [Hf' Hev'].
    split; [done|]. intros e f [?|?]%elem_of_app; eauto.
Qed.

(** After an event by which a stage leaves its loop, nothing of the loop
    follows. *)
Lemma run_after_exit (st0 : SharedState) (acts : list Action) (evs : list Event)
    (s : System) (st : Stage) :
  runs st0 acts evs s ->
  forall pre e0 post, evs = pre ++ e0 :: post -> exit_event st e0 ->
  left_loop st s /\ forall e, e ∈ post -> ~ in_loop st e.
Proof.
  intros Hrun.
  cut (consistent (WaitGroup st0) s
       /\ forall pre e0 post, evs = pre ++ e0 :: post -> exit_event st e0 ->
          left_loop st s /\ forall e, e ∈ post -> ~ in_loop st e); [tauto|].
  revert acts evs s Hrun.
  apply (run_invariant (fun evs s =>
    consistent (WaitGroup st0) s
    /\ forall pre e0 post, evs = pre ++ e0 :: post -> exit_event st e0 ->
       left_loop st s /\ forall e, e ∈ post -> ~ in_loop st e)).
  - split; [apply init_consistent|]. by destruct pre.
  - intros evs s a ev s' [Hc IH] Hs. split; [by eapply step_consistent|].
    intros pre e0 post [(post' & -> & ->)|(pre' & -> & ->)]%app_eq_middle Hex.
    + destruct (IH _ _ _ eq_refl Hex) as [Hl Hpost].
      destruct Hc as (_ & Hsp & _).
      destruct (step_left_loop _ _ _ _ _ Hsp Hl Hs) as [Hl' Hev].
      split; [done|]. intros e [?|?]%elem_of_app; eauto.
    + destruct (step_exit_event _ _ _ _ _ _ _ Hs Hex) as [-> Hl].
      split; [done|]. by intros e ?%elem_of_nil.
Qed.

Lemma run_cancelled (st0 : SharedState) (acts : list Action) (evs : list Event)
    (s : System) :
  runs st0 acts evs s ->
  forall pre post, evs = pre ++ EvCancel :: post ->
  Context_cancelled (state s) = true /\ (listings post + pending s <= 1)%nat.
Proof.
  apply (run_invariant (fun evs s =>
    forall pre post, evs = pre ++ EvCancel :: post ->
    Context_cancelled (state s) = true /\ (listings post + pending s <= 1)%nat)).
  - by destruct pre.
  - intros evs0 s0 a ev s' IH Hs pre post
      [(post' & -> & ->)|(pre' & -> & ->)]%app_eq_middle.
    + destruct (IH _ _ eq_refl) as [Hc Hn].
      destruct (step_listing _ _ _ _ Hc Hs) as [Hc' Hn'].
      split; [done|]. rewrite listings_app. lia.
    + destruct (step_cancel_event _ _ _ _ _ Hs) as [Hc ->].
      split; [done|]. unfold pending, listings. simpl. destruct (scraperPC s'); lia.
Qed.

End pipeline_facts.

Section pipeline_claims.
Import threads.
Context `{W : Workers}.

Lemma elem_of_writes (c : Counter) (evs : list Event) (st : Stage) (v : Z) :
  EvWrite st c v ∈ evs -> (st, v) ∈ writes c evs.
Proof.
  intros He. unfold writes. apply list_elem_of_omap. exists (EvWrite st c v).
  split; [done|]. simpl. by rewrite decide_True.
Qed.

(** C2, for the stages that read a queue. The Checker and the Transfer
    stage never call NeedsTransfer or PerformTransfer on a File with an
    empty path, never count it and never send it on; when one of them
    receives such a File it has left its loop, and does nothing of the
    loop afterwards. *)
Theorem checker_and_transfer_skip_sentinel (st0 : SharedState) (acts : list Action)
    (evs : list Event) (s : System) :
  runs st0 acts evs s ->
  (forall e f, e ∈ evs ->
     works_on StChecker f e \/ works_on StTransfer f e -> Path f <> EmptyString)
  /\ (forall st pre f post,
        evs = pre ++ EvRecv st f :: post -> Path f = EmptyString ->
        left_loop st s /\ forall e, e ∈ post -> ~ in_loop st e).
Proof.
  intros Hrun. split.
  - apply (run_sentinel_free _ _ _ _ Hrun).
  - intros st pre f post Hevs Hf.
    by apply (run_after_exit _ _ _ _ st Hrun pre (EvRecv st f) post).
Qed.

(** C3, as far as the code goes. Once the context is cancelled it stays
    cancelled. The scraper tests it at the head of its loop only: there
    it leaves the loop without listing, so that at most one directory is
    listed after the cancellation. The Checker and the Transfer stage,
    when they are at their select, have the done case ready, whatever
    their input queue holds, and leave their loop without receiving when
    it is taken; the receive case stays ready as well: a queued File can
    still be taken. A Scraper or Checker that is sending into a full
    queue cannot move, cancelled or not: the send has no done case. *)
Theorem cancellation_effect (st0 : SharedState) (acts : list Action)
    (evs : list Event) (s : System) :
  runs st0 acts evs s ->
  forall pre post, evs = pre ++ EvCancel :: post ->
  Context_cancelled (state s) = true
  /\ (listings post <= 1)%nat
  /\ (scraperPC s = SLoop ->
      step AScraper s = Some ([], with_scraperPC SSubmitDirs s))
  /\ (checkerPC s = CSelect ->
      step (AChecker CaseDone) s = Some ([], with_checkerPC CSubmit s)
      /\ forall f ch, chan_recv (chan1 s) = Some (f, ch) ->
         step (AChecker CaseIn) s =
           Some ([EvRecv StChecker f],
                 with_checkerPC (if path_empty f then CSubmit else CNeeds f)
                   (with_chan1 ch s)))
  /\ (transferPC s = TSelect ->
      step (ATransfer CaseDone) s = Some ([], with_transferPC TSubmit s)
      /\ forall f ch, chan_recv (chan2 s) = Some (f, ch) ->
         step (ATransfer CaseIn) s =
           Some ([EvRecv StTransfer f],
                 with_transferPC (if path_empty f then TSubmit else TPerform f)
                   (with_chan2 ch s)))
  /\ (forall f files, scraperPC s = SSend f files ->
      length (buf (chan1 s)) = capacity -> step AScraper s = None)
  /\ (forall f c, checkerPC s = CSend f ->
      length (buf (chan2 s)) = capacity -> step (AChecker c) s = None).
Proof.
  intros Hrun pre post Hevs.
  destruct (run_cancelled _ _ _ _ Hrun _ _ Hevs) as [Hc Hn].
  split; [done|]. split; [lia|].
  split; [|split; [|split; [|split]]]; simpl.
  - intros Hpc. unfold makeScraperThread_go. by rewrite Hpc, Hc.
  - intros Hpc. unfold makeCheckerThread_go. rewrite Hpc, Hc. split; [done|].
    intros f ch Hrecv. by rewrite Hrecv.
  - intros Hpc. unfold makeTransferThread_go. rewrite Hpc, Hc. split; [done|].
    intros f ch Hrecv. by rewrite Hrecv.
  - intros f files Hpc Hlen. unfold makeScraperThread_go, chan_send.
    by rewrite Hpc, Hlen, Nat.ltb_irrefl.
  - intros f c Hpc Hlen. unfold makeCheckerThread_go, chan_send.
    by rewrite Hpc, Hlen, Nat.ltb_irrefl.
Qed.

(** C7. In every run each counter field is written at most once, by the
    stage that owns it, with that stage's tally, after the stage has left
    its loop for good (nothing of its loop follows the write), and exactly
    once when the stage has terminated. The orchestrator reads the fields
    for Log after all three stages have called Done, when every field has
    been written, and no write follows; what it logs is each stage's final
    tally. *)
Theorem counters_single_writer (st0 : SharedState) (acts : list Action)
    (evs : list Event) (s : System) :
  runs st0 acts evs s ->
  (forall c, writes c evs = [] \/ writes c evs = [(owner c, tally c s)])
  /\ (forall c, terminated (owner c) s -> writes c evs = [(owner c, tally c s)])
  /\ (forall c pre st v post,
        evs = pre ++ EvWrite st c v :: post ->
        st = owner c /\ v = tally c s /\ field c (state s) = v
        /\ left_loop st s /\ forall e, e ∈ post -> ~ in_loop st e)
  /\ (forall pre ds ff nt tr post,
        evs = pre ++ EvLog ds ff nt tr :: post ->
        (forall st, EvDone st ∈ pre)
        /\ (forall c, writes c pre = [(owner c, logged c ds ff nt tr)])
        /\ (forall c, writes c post = [])
        /\ (forall st, terminated st s)
        /\ (forall c, logged c ds ff nt tr = tally c s)).
Proof.
  intros Hrun.
  pose proof (run_consistent _ _ _ _ Hrun) as (Hwg & Hsp & Hf).
  pose proof (run_journal _ _ _ _ Hrun) as (Hw & Hd & Hl & Ho).
  split; [|split; [|split]].
  - intros c. rewrite Hw. destruct (written c s); auto.
  - intros c Ht. rewrite Hw.
    assert (written c s = true) as ->; [|done].
    destruct c; simpl in *; by rewrite Ht.
  - intros c pre st v post Hevs.
    assert (Hin : (st, v) ∈ writes c evs).
    { apply elem_of_writes. rewrite Hevs, elem_of_app, elem_of_cons. auto. }
    rewrite Hw in Hin. destruct (written c s) eqn:Hwr; [|by apply elem_of_nil in Hin].
    apply list_elem_of_singleton in Hin as [= -> ->].
    split; [done|]. split; [done|]. split; [by apply Hf|].
    by apply (run_after_exit _ _ _ _ (owner c) Hrun pre (EvWrite (owner c) c (tally c s)) post).
  - intros pre ds ff nt tr post Hevs.
    destruct (Ho _ _ _ _ _ _ Hevs) as (Hdone & Hpre & Hpost).
    assert (Hm : mainPC s = MReturned).
    { apply Hl. exists ds, ff, nt, tr. rewrite Hevs, elem_of_app, elem_of_cons. auto. }
    unfold spawned in Hsp. rewrite Hm in Hsp.
    repeat split; try done.
    intros c. specialize (Hw c). rewrite Hevs, writes_app, Hpre in Hw.
    simpl in Hw. rewrite Hpost in Hw.
    assert (written c s = true) as Hwr.
    { pose proof (Hsp (owner c)) as Ht. destruct c; simpl in *; by rewrite Ht. }
    rewrite Hwr in Hw. by injection Hw.
Qed.

End pipeline_claims.

(** ** The properties at the concrete jobs *)

Section pipeline_witnesses.
Import threads pipeline_fixtures.

(** C2 as stated fails: the scraper stage counts a File with an empty path
    and sends it on, so not every stage treats it as the end of the
    stream. *)
Lemma scraper_forwards_sentinel :
  ~ (forall st : Stage, skips_sentinel (W := toyWorkers) st).
Proof.
  intros H.
  destruct (run scraperForwardsEmpty (makeScraperThread (job emptyPathJob [])))
    as [[evs s]|] eqn:Hrun; [|by vm_compute in Hrun].
  apply (H StScraper _ _ _ _ Hrun (EvSend StScraper (file EmptyString)) (file EmptyString)); [|done|done].
  vm_compute in Hrun. injection Hrun as <- _.
  rewrite !elem_of_cons. auto.
Qed.

(** C3 as stated fails: with [a.txt] and [b.txt] queued when the signal
    arrives, the checker's select may still take [a.txt] and call
    NeedsTransfer on it. *)
Lemma checker_pulls_after_cancel : ~ stops_on_cancel (W := toyWorkers).
Proof.
  intros H.
  destruct (run cancelThenPull (makeScraperThread (job twoFiles [])))
    as [[evs s]|] eqn:Hrun; [|by vm_compute in Hrun].
  refine (H _ _ _ _ Hrun
            [EvListDir [file "a.txt"; file "b.txt"];
             EvCount StScraper (file "a.txt"); EvSend StScraper (file "a.txt");
             EvCount StScraper (file "b.txt"); EvSend StScraper (file "b.txt")]
            [EvRecv StChecker (file "a.txt"); EvNeedsTransfer (file "a.txt") true;
             EvCount StChecker (file "a.txt")]
            _ (EvRecv StChecker (file "a.txt")) _ _).
  - vm_compute in Hrun. by injection Hrun as <- _.
  - rewrite !elem_of_cons. auto.
  - done.
Qed.

Lemma checker_and_transfer_skip_sentinel_witness :
  exists evs s,
    runs (job twoFiles []) fullSchedule evs s
    /\ (forall e f, e ∈ evs ->
          works_on StChecker f e \/ works_on StTransfer f e -> Path f <> EmptyString).
Proof.
  destruct (run fullSchedule (makeScraperThread (job twoFiles [])))
    as [[evs s]|] eqn:Hrun.
  - exists evs, s. split; [exact Hrun|].
    exact (proj1 (checker_and_transfer_skip_sentinel _ _ _ _ Hrun)).
  - vm_compute in Hrun. discriminate Hrun.
Defined.

Lemma cancellation_effect_witness :
  exists evs s,
    runs (job twoFiles []) (cancelThenList ++ [AScraper; AScraper]) evs s
    /\ forall pre post, evs = pre ++ EvCancel :: post ->
       Context_cancelled (state s) = true /\ (listings post <= 1)%nat.
Proof.
  destruct (run (cancelThenList ++ [AScraper; AScraper]) (makeScraperThread (job twoFiles [])))
    as [[evs s]|] eqn:Hrun.
  - exists evs, s. split; [exact Hrun|]. intros pre post Hevs.
    destruct (cancellation_effect _ _ _ _ Hrun pre post Hevs) as (Hc & Hn & _).
    exact (conj Hc Hn).
  - vm_compute in Hrun. discriminate Hrun.
Defined.

Lemma counters_single_writer_witness :
  exists evs s,
    runs (job twoFiles []) fullSchedule evs s
    /\ forall pre ds ff nt tr post,
         evs = pre ++ EvLog ds ff nt tr :: post ->
         (forall st, EvDone st ∈ pre)
         /\ (forall c, writes c pre = [(owner c, logged c ds ff nt tr)])
         /\ (forall c, writes c post = [])
         /\ (forall st, terminated st s)
         /\ (forall c, logged c ds ff nt tr = tally c s).
Proof.
  destruct (run fullSchedule (makeScraperThread (job twoFiles [])))
    as [[evs s]|] eqn:Hrun.
  - exists evs, s. split; [exact Hrun|].
    exact (proj2 (proj2 (proj2 (counters_single_writer _ _ _ _ Hrun)))).
  - vm_compute in Hrun. discriminate Hrun.
Defined.

(** The run of the two files to its end, as the spec's scenario has it:
    one directory scanned, two files found, two needing transfer, two
    transferred. *)
Example fullSchedule_counters :
  option_map (fun r => (DirectoriesScanned (state r.2), FilesFound (state r.2),
                        FilesNeedTransfer (state r.2), FilesTransferred (state r.2)))
             (run fullSchedule (makeScraperThread (job twoFiles [])))
  = Some (1, 2, 2, 2)%Z.
Proof. vm_compute. reflexivity. Qed.

End pipeline_witnesses.
